(** * A shallow embedding of [main.py] (background IPython kernel wrapper)

    The program is a thin orchestration layer over external libraries
    (zmq, ipykernel, jupyter_client, asyncio).  The embedding keeps the
    repository's own control flow exactly as written and represents every
    external call by an event in a trace, with its outcome supplied by an
    oracle where the external library decides it. *)

From Stdlib Require Import List Bool Arith ZArith Lia Ascii String NArith.
Import ListNotations.
Open Scope list_scope.

(* ================================================================== *)
(** ** Python strings and [os.path.splitext] *)

Module PyStr.

(** Python strings are modelled as lists of characters. *)
Definition pystr := list ascii.

Definition s (x : string) : pystr := list_ascii_of_string x.

(** [str.rfind] for a single character: the last index, or [-1]. *)
Fixpoint rfind_from (c : ascii) (p : pystr) (i : Z) (acc : Z) : Z :=
  match p with
  | [] => acc
  | x :: r => rfind_from c r (i + 1)%Z (if ascii_dec x c then i else acc)
  end.

Definition rfind (p : pystr) (c : ascii) : Z := rfind_from c p 0%Z (-1)%Z.

(** Slicing [p[i:j]] for non-negative bounds. *)
Definition slice (p : pystr) (i j : Z) : pystr :=
  firstn (Z.to_nat j - Z.to_nat i) (skipn (Z.to_nat i) p).

Definition pystr_eqb (a b : pystr) : bool :=
  if list_eq_dec ascii_dec a b then true else false.

(** The [while filenameIndex < dotIndex] loop of [genericpath._splitext]. *)
Fixpoint splitext_scan (p : pystr) (dotIndex filenameIndex : Z) (fuel : nat)
  : pystr * pystr :=
  match fuel with
  | O => (p, [])
  | S f =>
      if (filenameIndex <? dotIndex)%Z then
        if negb (pystr_eqb (slice p filenameIndex (filenameIndex + 1)) (s "."))
        then (firstn (Z.to_nat dotIndex) p, skipn (Z.to_nat dotIndex) p)
        else splitext_scan p dotIndex (filenameIndex + 1)%Z f
      else (p, [])
  end.

(** [posixpath.splitext] = [genericpath._splitext(p, '/', None, '.')]:
<<
    sepIndex = p.rfind(sep)
    dotIndex = p.rfind(extsep)
    if dotIndex > sepIndex:
        filenameIndex = sepIndex + 1
        while filenameIndex < dotIndex:
            if p[filenameIndex:filenameIndex+1] != extsep:
                return p[:dotIndex], p[dotIndex:]
            filenameIndex += 1
    return p, p[:0]
>> *)
Definition splitext (p : pystr) : pystr * pystr :=
  let sepIndex := rfind p "/"%char in
  let dotIndex := rfind p "."%char in
  if (sepIndex <? dotIndex)%Z
  then splitext_scan p dotIndex (sepIndex + 1)%Z (List.length p)
  else (p, []).

(** ["%i" % n] for a non-negative integer: its decimal digits. *)
Fixpoint dec_digits (fuel : nat) (n : N) (acc : pystr) : pystr :=
  match fuel with
  | O => acc
  | S f =>
      let acc' := ascii_of_N (48 + N.modulo n 10) :: acc in
      if (n <? 10)%N then acc' else dec_digits f (N.div n 10) acc'
  end.

Definition fmt_int (n : N) : pystr := dec_digits (S (N.to_nat (N.size n))) n [].

End PyStr.

Import PyStr.

(* ================================================================== *)
(** ** [IPythonBackgroundKernelWrapper.__init__], lines 37-40 *)

Module ConnFile.

(**
<<
        if connection_fn_with_pid:
            name, ext = os.path.splitext(connection_filename)
            connection_filename = "%s-%i%s" % (name, os.getpid(), ext)
        self._connection_filename = connection_filename
>> *)
Definition connection_filename (connection_filename : pystr)
    (connection_fn_with_pid : bool) (pid : N) : pystr :=
  if connection_fn_with_pid then
    let '(name, ext) := splitext connection_filename in
    name ++ s "-" ++ fmt_int pid ++ ext
  else connection_filename.

End ConnFile.

(* ================================================================== *)
(** ** Python exceptions, the file system and [os.remove] *)

Module Py.

(** The [OSError] subclasses the program meets ([IOError] is an alias of
    [OSError] in Python 3). *)
Inductive os_error :=
| FileNotFoundError
| PermissionError
| IsADirectoryError
| OtherOSError.

Inductive exc :=
| OSError (e : os_error)
| KeyboardInterrupt
| AssertionError
| AttributeError
| ValueError
| OtherException.

Inductive result (A : Type) :=
| Ok (a : A)
| Exc (e : exc).
Arguments Ok {A} a.
Arguments Exc {A} e.

(** The connection file's content: the keyword arguments passed to
    [write_connection_file] by line 103. *)
Record conn_info := {
  ci_ip : pystr;
  ci_shell_port : Z;
  ci_iopub_port : Z;
  ci_control_port : Z;
  ci_hb_port : Z
}.

Record file := {
  f_mode : Z;
  f_key : pystr;
  f_info : conn_info
}.

(** A file system: the files present, and for each path the OS error, if
    any, that unlinking it raises although it exists (a read-only or
    sticky directory, a directory entry, ...). *)
Record fs := {
  fs_files : list (pystr * file);
  fs_unlink_error : pystr -> option os_error
}.

Fixpoint lookup_file (p : pystr) (l : list (pystr * file)) : option file :=
  match l with
  | [] => None
  | (q, f) :: r => if pystr_eqb p q then Some f else lookup_file p r
  end.

Definition remove_file (p : pystr) (l : list (pystr * file)) : list (pystr * file) :=
  filter (fun '(q, _) => negb (pystr_eqb p q)) l.

Definition put_file (p : pystr) (f : file) (l : list (pystr * file)) : list (pystr * file) :=
  (p, f) :: remove_file p l.

Definition set_files (l : list (pystr * file)) (x : fs) : fs :=
  {| fs_files := l; fs_unlink_error := fs_unlink_error x |}.

Definition exists_file (p : pystr) (x : fs) : bool :=
  match lookup_file p (fs_files x) with Some _ => true | None => false end.

(** Whether a path contains a NUL character: CPython's path conversion
    refuses such a path with [ValueError: embedded null byte] before any
    system call. *)
Definition has_nul (p : pystr) : bool := existsb (fun c => Ascii.eqb c "000"%char) p.

(** [os.remove(p)] (unlink). *)
Definition os_remove (p : pystr) (x : fs) : result unit * fs :=
  if has_nul p then (Exc ValueError, x) else
  match lookup_file p (fs_files x) with
  | None => (Exc (OSError FileNotFoundError), x)
  | Some _ =>
      match fs_unlink_error x p with
      | Some e => (Exc (OSError e), x)
      | None => (Ok tt, set_files (remove_file p (fs_files x)) x)
      end
  end.

End Py.

Import Py.

(* ================================================================== *)
(** ** [_cleanup_connection_file], lines 93-97 *)

Module Cleanup.

(**
<<
    def _cleanup_connection_file(self):
        try:
            os.remove(self._connection_filename)
        except (IOError, OSError):
            pass
>> *)
Definition cleanup_connection_file (connection_filename : pystr) (x : fs)
  : result unit * fs :=
  match os_remove connection_filename x with
  | (Exc (OSError _), x') => (Ok tt, x')
  | r => r
  end.

(** The hooks registered with [atexit]. *)
Inductive hook :=
| HookCleanupConnectionFile (connection_filename : pystr).

Definition run_hook (h : hook) (x : fs) : result unit * fs :=
  match h with
  | HookCleanupConnectionFile fn => cleanup_connection_file fn x
  end.

(** At interpreter exit, [atexit] calls the hooks last-registered first; an
    exception of one hook is printed and the remaining hooks still run. *)
Fixpoint run_atexit (hooks : list hook) (x : fs) : fs :=
  match hooks with
  | [] => x
  | h :: r => run_atexit r (snd (run_hook h x))
  end.

End Cleanup.

(* ================================================================== *)
(** ** The process state seen by the wrapper *)

Module Model.

Inductive socket_type := ROUTER | PUB.

(** How a socket was bound: the endpoint passed to [bind] and the port it
    obtained. *)
Record socket_rec := {
  s_ctx : nat;
  s_type : socket_type;
  s_bound : option (pystr * Z)  (* endpoint, port *)
}.

(** [ipykernel.heartbeat.Heartbeat(context, (transport, ip, port))]: a
    [threading.Thread]; a port of 0 makes it pick a free port at
    construction; [start()] starts its thread, which opens its socket in
    [context]. *)
Record heartbeat_rec := {
  hb_ctx : nat;
  hb_transport : pystr;
  hb_ip : pystr;
  hb_requested_port : Z;
  hb_port : Z;
  hb_thread : nat;                   (* the heartbeat's own thread *)
  hb_started : bool
}.

(** A [ZMQStream] wraps a socket (sockets are named by their index in the
    process's list of sockets). *)
Inductive stream := ZMQStream (sock : nat).

(** The [traitlets] configuration built in [_create_kernel]. *)
Record config := {
  cfg_InteractiveShell_banner2 : option pystr;
  cfg_HistoryAccessor_check_same_thread : option bool
}.

Definition Config : config :=
  {| cfg_InteractiveShell_banner2 := None;
     cfg_HistoryAccessor_check_same_thread := None |}.

(** The user namespace: [None] or a dict of names to values. *)
Definition user_ns := option (list (pystr * Z)).

(** The keyword arguments of [IPythonKernel(...)]. *)
Record kernel_args := {
  ka_session : pystr;               (* the session, named by its key *)
  ka_shell_streams : list (option stream);   (* [None] for an unset stream *)
  ka_iopub_socket : nat;
  ka_log : nat;                     (* the logger, by handle *)
  ka_user_ns : user_ns;
  ka_config : config
}.

Inductive kernel := IPythonKernel (args : kernel_args).

(** What a thread runs: [_thread_loop] of the wrapper, or the [run]
    method of the [n]-th heartbeat. *)
Inductive target := Target_thread_loop | Target_heartbeat (n : nat).

Record thread := {
  th_target : target;
  th_name : pystr;
  th_daemon : bool;
  th_started : bool
}.

(** The attributes of an [IPythonBackgroundKernelWrapper] instance;
    [None] stands for [None] (or for an attribute not yet assigned). *)
Record wrapper := {
  _connection_filename : pystr;
  _thread : option nat;
  _shell_stream : option stream;
  _control_stream : option stream;
  _kernel : option kernel;
  _user_ns : user_ns;
  _banner : pystr;
  _logger : nat;
  _session_key : pystr;
  _connection_info : option conn_info;
  _shell_socket : option nat;
  _control_socket : option nat;
  _iopub_socket : option nat
}.

(** External calls whose failure is decided by the libraries. *)
Inductive ext_call :=
| XWriteConnectionFile
| XChmod
| XZMQStream (sock : nat)
| XIPythonKernel
| XKernelStart
| XZMQContext                     (* zmq.Context() *)
| XGetHostByName                  (* socket.gethostbyname(socket.gethostname()) *)
| XBind (sock : nat)              (* bind_to_random_port on socket [sock] *)
| XHeartbeat.                     (* Heartbeat(...), which binds to pick its port *)

(** What the environment decides. *)
Record env := {
  env_raises : ext_call -> option exc;
  env_port : nat -> Z;          (* the port handed out by the n-th port pick *)
  env_ip : pystr;               (* socket.gethostbyname(socket.gethostname()) *)
  env_pid : N;
  env_new_file_mode : Z;        (* mode of a freshly written file *)
  env_write_partial : bool;     (* a failed write had already created the file *)
  env_ki_at : option nat;       (* loop iteration interrupted by KeyboardInterrupt *)
  env_stop_at : option nat;     (* loop iteration whose callbacks call loop.stop() *)
  env_sleep_ki : nat -> bool    (* whether the n-th time.sleep is interrupted *)
}.

Inductive event :=
| EvAtexitRegister (h : Cleanup.hook)
| EvWriteConnectionFile (fn : pystr)
| EvChmod (fn : pystr) (mode : Z)
| EvLogInfo
| EvAssert (ok : bool)
| EvNewContext (ctx : nat)
| EvNewSocket (sock : nat)
| EvBind (sock : nat)
| EvNewHeartbeat (ctx : nat)
| EvHeartbeatStart
| EvAcquire
| EvRelease
| EvNotifyAll
| EvNewStream (sock : nat)
| EvSetShellStream
| EvSetControlStream
| EvNewKernel (args : kernel_args)
| EvSetKernel
| EvKernelStart
| EvNewEventLoop
| EvCallSoon
| EvRunForever
| EvLoopIteration (n : nat)
| EvLoopStop
| EvCallbackException (e : exc)
| EvKeyboardInterrupt
| EvNewThread (tid : nat)
| EvSetDaemon (tid : nat)
| EvSetThread (tid : nat)
| EvThreadStart (tid : nat)
| EvSleep (n : nat)
| EvPrint.

Record world := {
  w_fs : fs;
  w_atexit : list Cleanup.hook;      (* most recently registered first *)
  w_trace : list event;
  w_cur : nat;                       (* threading.current_thread() *)
  w_threads : list (nat * thread);
  w_next_tid : nat;
  w_next_ctx : nat;
  w_sockets : list socket_rec;
  w_heartbeats : list heartbeat_rec;
  w_ports_used : nat;
  w_self : wrapper;
  w_env : env
}.

End Model.

Import Model.

(* ================================================================== *)
(** ** A state and exception monad over the process state *)

Module Monad.

Definition M (A : Type) := world -> result A * world.

Definition ret {A} (a : A) : M A := fun w => (Ok a, w).

Definition bind {A B} (m : M A) (k : A -> M B) : M B :=
  fun w => match m w with
           | (Ok a, w') => k a w'
           | (Exc e, w') => (Exc e, w')
           end.

Definition raise {A} (e : exc) : M A := fun w => (Exc e, w).

Declare Scope py_scope.
Delimit Scope py_scope with py.
Notation "x <- m ;; k" := (bind m (fun x => k))
  (at level 61, m at next level, right associativity) : py_scope.
Notation "m ;; k" := (bind m (fun _ : unit => k))
  (at level 61, right associativity) : py_scope.
Open Scope py_scope.

(** Positional updates of the process state. *)
Definition upd_fs (x : fs) (w : world) : world :=
  Build_world x (w_atexit w) (w_trace w) (w_cur w) (w_threads w) (w_next_tid w)
    (w_next_ctx w) (w_sockets w) (w_heartbeats w) (w_ports_used w) (w_self w) (w_env w).
Definition upd_atexit (l : list Cleanup.hook) (w : world) : world :=
  Build_world (w_fs w) l (w_trace w) (w_cur w) (w_threads w) (w_next_tid w)
    (w_next_ctx w) (w_sockets w) (w_heartbeats w) (w_ports_used w) (w_self w) (w_env w).
Definition upd_trace (l : list event) (w : world) : world :=
  Build_world (w_fs w) (w_atexit w) l (w_cur w) (w_threads w) (w_next_tid w)
    (w_next_ctx w) (w_sockets w) (w_heartbeats w) (w_ports_used w) (w_self w) (w_env w).
Definition upd_threads (l : list (nat * thread)) (n : nat) (w : world) : world :=
  Build_world (w_fs w) (w_atexit w) (w_trace w) (w_cur w) l n
    (w_next_ctx w) (w_sockets w) (w_heartbeats w) (w_ports_used w) (w_self w) (w_env w).
Definition upd_zmq (nctx : nat) (socks : list socket_rec) (hbs : list heartbeat_rec)
    (ports : nat) (w : world) : world :=
  Build_world (w_fs w) (w_atexit w) (w_trace w) (w_cur w) (w_threads w) (w_next_tid w)
    nctx socks hbs ports (w_self w) (w_env w).
Definition upd_self (x : wrapper) (w : world) : world :=
  Build_world (w_fs w) (w_atexit w) (w_trace w) (w_cur w) (w_threads w) (w_next_tid w)
    (w_next_ctx w) (w_sockets w) (w_heartbeats w) (w_ports_used w) x (w_env w).

Definition emit (e : event) : M unit :=
  fun w => (Ok tt, upd_trace (w_trace w ++ [e]) w).

Definition get : M world := fun w => (Ok w, w).
Definition get_self : M wrapper := fun w => (Ok (w_self w), w).
Definition put_self (x : wrapper) : M unit := fun w => (Ok tt, upd_self x w).
Definition get_env : M env := fun w => (Ok (w_env w), w).

(** An external call that the environment may make raise. *)
Definition ext (c : ext_call) : M unit :=
  fun w => match env_raises (w_env w) c with
           | Some e => (Exc e, w)
           | None => (Ok tt, w)
           end.

(** Reading an attribute that may not be assigned. *)
Definition attr {A} (o : option A) : M A :=
  match o with Some a => ret a | None => raise AttributeError end.

(** [assert b]. *)
Definition py_assert (b : bool) : M unit :=
  emit (EvAssert b) ;; if b then ret tt else raise AssertionError.

(** [try: m except <handled>: h]. *)
Definition try_except {A} (m : M A) (handled : exc -> bool) (h : exc -> M A) : M A :=
  fun w => match m w with
           | (Exc e, w') => if handled e then h e w' else (Exc e, w')
           | r => r
           end.

(** [with self._condition: body]: the lock is released on every exit. *)
Definition with_condition {A} (body : M A) : M A :=
  emit EvAcquire ;;
  fun w => match body w with
           | (r, w') => (r, upd_trace (w_trace w' ++ [EvRelease]) w')
           end.

Definition notify_all : M unit := emit EvNotifyAll.

Definition logger_info : M unit := emit EvLogInfo.

End Monad.

Import Monad.
Open Scope py_scope.

(* ================================================================== *)
(** ** [_write_connection_file], lines 99-109 *)

Module WriteConn.

Definition atexit_register (h : Cleanup.hook) : M unit :=
  emit (EvAtexitRegister h) ;;
  fun w => (Ok tt, upd_atexit (h :: w_atexit w) w).

(** [ipykernel.write_connection_file(fname, key=..., **info)] (external):
    it writes the file, or raises, possibly after having created it. *)
Definition ipykernel_write_connection_file (fn key : pystr) (info : conn_info) : M unit :=
  emit (EvWriteConnectionFile fn) ;;
  fun w =>
    let created := upd_fs (set_files (put_file fn
                     {| f_mode := env_new_file_mode (w_env w); f_key := key;
                        f_info := info |} (fs_files (w_fs w))) (w_fs w)) w in
    match env_raises (w_env w) XWriteConnectionFile with
    | Some e => (Exc e, if env_write_partial (w_env w) then created else w)
    | None => (Ok tt, created)
    end.

(** [os.stat(fn).st_mode]. *)
Definition os_stat_st_mode (fn : pystr) : M Z :=
  fun w => match lookup_file fn (fs_files (w_fs w)) with
           | Some f => (Ok (f_mode f), w)
           | None => (Exc (OSError FileNotFoundError), w)
           end.

(** [os.chmod(fn, mode)]. *)
Definition os_chmod (fn : pystr) (mode : Z) : M unit :=
  emit (EvChmod fn mode) ;;
  ext XChmod ;;
  fun w => match lookup_file fn (fs_files (w_fs w)) with
           | Some f =>
               (Ok tt, upd_fs (set_files (put_file fn
                  {| f_mode := mode; f_key := f_key f; f_info := f_info f |}
                  (fs_files (w_fs w))) (w_fs w)) w)
           | None => (Exc (OSError FileNotFoundError), w)
           end.

(**
<<
    def _write_connection_file(self):
        atexit.register(self._cleanup_connection_file)
        write_connection_file(self._connection_filename, key=self._session.key,
                              **self._connection_info)
        os.chmod(self._connection_filename,
                 os.stat(self._connection_filename).st_mode & 0o0700)
        self._logger.info(...)
>> *)
Definition _write_connection_file : M unit :=
  self <- get_self ;;
  atexit_register (Cleanup.HookCleanupConnectionFile (_connection_filename self)) ;;
  info <- attr (_connection_info self) ;;
  ipykernel_write_connection_file (_connection_filename self) (_session_key self) info ;;
  mode <- os_stat_st_mode (_connection_filename self) ;;
  os_chmod (_connection_filename self) (Z.land mode 448) ;;
  logger_info.

End WriteConn.

(* ================================================================== *)
(** ** [_create_sockets], lines 63-91 *)

Module Sockets.

Fixpoint update_nth {A} (n : nat) (f : A -> A) (l : list A) : list A :=
  match l, n with
  | [], _ => []
  | x :: r, O => f x :: r
  | x :: r, S m => x :: update_nth m f r
  end.

(** [zmq.Context()], which raises [ZMQError] when [libzmq] cannot create
    a context. *)
Definition zmq_Context : M nat :=
  ext XZMQContext ;;
  fun w => let c := w_next_ctx w in
           (Ok c, upd_trace (w_trace w ++ [EvNewContext c])
                    (upd_zmq (S c) (w_sockets w) (w_heartbeats w) (w_ports_used w) w)).

(** [context.socket(type)]. *)
Definition context_socket (ctx : nat) (ty : socket_type) : M nat :=
  fun w => let i := List.length (w_sockets w) in
           (Ok i, upd_trace (w_trace w ++ [EvNewSocket i])
                    (upd_zmq (w_next_ctx w)
                       (w_sockets w ++ [{| s_ctx := ctx; s_type := ty; s_bound := None |}])
                       (w_heartbeats w) (w_ports_used w) w)).

(** [sock.bind_to_random_port(addr)] with its default arguments
    [min_port=49152, max_port=65536]: with these defaults pyzmq binds
    [addr:*], so that the OS picks a free port, and returns the port of the
    bound endpoint; the bind raises [ZMQError] when no port can be bound. *)
Definition bind_to_random_port (sock : nat) (addr : pystr) : M Z :=
  emit (EvBind sock) ;;
  ext (XBind sock) ;;
  fun w => let port := env_port (w_env w) (w_ports_used w) in
           let bind r := {| s_ctx := s_ctx r; s_type := s_type r;
                            s_bound := Some (addr ++ s ":*", port) |} in
           (Ok port, upd_zmq (w_next_ctx w) (update_nth sock bind (w_sockets w))
                       (w_heartbeats w) (S (w_ports_used w)) w).

(** [Heartbeat(ctx, (transport, ip, port))]: the constructor initialises
    its [threading.Thread] (named ["Heartbeat"], a daemon) and, with port 0,
    binds a socket to pick a free port, which may raise. *)
Definition Heartbeat (ctx : nat) (transport ip : pystr) (port : Z) : M nat :=
  emit (EvNewHeartbeat ctx) ;;
  ext XHeartbeat ;;
  fun w => let i := List.length (w_heartbeats w) in
           let t := w_next_tid w in
           let picked := (port =? 0)%Z in
           let hp := if picked then env_port (w_env w) (w_ports_used w) else port in
           (Ok i, upd_threads ((t, {| th_target := Target_heartbeat i;
                                      th_name := s "Heartbeat";
                                      th_daemon := true; th_started := false |})
                               :: w_threads w) (S t)
                    (upd_zmq (w_next_ctx w) (w_sockets w)
                       (w_heartbeats w ++ [{| hb_ctx := ctx; hb_transport := transport;
                                              hb_ip := ip; hb_requested_port := port;
                                              hb_port := hp; hb_thread := t;
                                              hb_started := false |}])
                       (if picked then S (w_ports_used w) else w_ports_used w) w)).

Definition heartbeat_port (hb : nat) : M Z :=
  fun w => match nth_error (w_heartbeats w) hb with
           | Some r => (Ok (hb_port r), w)
           | None => (Exc AttributeError, w)
           end.

(** Marks thread [t] as started. *)
Definition mark_started (t : nat) (l : list (nat * thread)) : list (nat * thread) :=
  map (fun '(u, r) => if Nat.eqb u t
                      then (u, {| th_target := th_target r; th_name := th_name r;
                                  th_daemon := th_daemon r; th_started := true |})
                      else (u, r)) l.

(** [heartbeat.start()]: [Thread.start] of the heartbeat's thread. *)
Definition heartbeat_start (hb : nat) : M unit :=
  fun w => match nth_error (w_heartbeats w) hb with
           | Some h =>
               (Ok tt, upd_trace (w_trace w ++ [EvHeartbeatStart])
                         (upd_threads (mark_started (hb_thread h) (w_threads w)) (w_next_tid w)
                           (upd_zmq (w_next_ctx w) (w_sockets w)
                              (update_nth hb (fun r => {| hb_ctx := hb_ctx r;
                                   hb_transport := hb_transport r; hb_ip := hb_ip r;
                                   hb_requested_port := hb_requested_port r;
                                   hb_port := hb_port r; hb_thread := hb_thread r;
                                   hb_started := true |})
                                 (w_heartbeats w))
                              (w_ports_used w) w)))
           | None => (Exc AttributeError, w)
           end.

Definition set_sockets (info : conn_info) (shell control iopub : nat) : M unit :=
  self <- get_self ;;
  put_self {| _connection_filename := _connection_filename self;
              _thread := _thread self;
              _shell_stream := _shell_stream self;
              _control_stream := _control_stream self;
              _kernel := _kernel self;
              _user_ns := _user_ns self;
              _banner := _banner self;
              _logger := _logger self;
              _session_key := _session_key self;
              _connection_info := Some info;
              _shell_socket := Some shell;
              _control_socket := Some control;
              _iopub_socket := Some iopub |}.

(**
<<
        context = zmq.Context()
        ip = socket.gethostbyname(socket.gethostname())   (may raise socket.gaierror)
        transport = "tcp"
        addr = "%s://%s" % (transport, ip)
        shell_socket = context.socket(zmq.ROUTER)
        shell_port = shell_socket.bind_to_random_port(addr)
        iopub_socket = context.socket(zmq.PUB)
        iopub_port = iopub_socket.bind_to_random_port(addr)
        control_socket = context.socket(zmq.ROUTER)
        control_port = control_socket.bind_to_random_port(addr)
        hb_ctx = zmq.Context()
        heartbeat = Heartbeat(hb_ctx, (transport, ip, 0))
        hb_port = heartbeat.port
        heartbeat.start()
        self._connection_info = dict(ip=ip, shell_port=..., iopub_port=...,
                                     control_port=..., hb_port=...)
        self._shell_socket = shell_socket  (and control, iopub)
>> *)
Definition _create_sockets : M unit :=
  context <- zmq_Context ;;
  ext XGetHostByName ;;
  e <- get_env ;;
  let ip := env_ip e in
  let transport := s "tcp" in
  let addr := transport ++ s "://" ++ ip in
  shell_socket <- context_socket context ROUTER ;;
  shell_port <- bind_to_random_port shell_socket addr ;;
  iopub_socket <- context_socket context PUB ;;
  iopub_port <- bind_to_random_port iopub_socket addr ;;
  control_socket <- context_socket context ROUTER ;;
  control_port <- bind_to_random_port control_socket addr ;;
  hb_ctx <- zmq_Context ;;
  heartbeat <- Heartbeat hb_ctx transport ip 0 ;;
  hb_port <- heartbeat_port heartbeat ;;
  heartbeat_start heartbeat ;;
  set_sockets {| ci_ip := ip; ci_shell_port := shell_port; ci_iopub_port := iopub_port;
                 ci_control_port := control_port; ci_hb_port := hb_port |}
              shell_socket control_socket iopub_socket.

End Sockets.

(** The library calls of [_create_sockets] that may raise: [zmq.Context()],
    [socket.gethostbyname], [bind_to_random_port] (no free port) and the
    [Heartbeat] constructor (which binds a socket of its own). *)
Definition is_socket_call (c : ext_call) : bool :=
  match c with
  | XZMQContext | XGetHostByName | XBind _ | XHeartbeat => true
  | _ => false
  end.

(** An environment in which none of these calls raises. *)
Definition sockets_ok (e : env) : Prop :=
  forall c, is_socket_call c = true -> env_raises e c = None.

(* ================================================================== *)
(** ** The background thread: lines 111-178 *)

Module Kernel.

Definition upd_cur (t : nat) (w : world) : world :=
  Build_world (w_fs w) (w_atexit w) (w_trace w) t (w_threads w) (w_next_tid w)
    (w_next_ctx w) (w_sockets w) (w_heartbeats w) (w_ports_used w) (w_self w) (w_env w).

Definition set_thread_attr (t : option nat) (x : wrapper) : wrapper :=
  Build_wrapper (_connection_filename x) t (_shell_stream x) (_control_stream x)
    (_kernel x) (_user_ns x) (_banner x) (_logger x) (_session_key x)
    (_connection_info x) (_shell_socket x) (_control_socket x) (_iopub_socket x).
Definition set_shell_stream_attr (v : option stream) (x : wrapper) : wrapper :=
  Build_wrapper (_connection_filename x) (_thread x) v (_control_stream x)
    (_kernel x) (_user_ns x) (_banner x) (_logger x) (_session_key x)
    (_connection_info x) (_shell_socket x) (_control_socket x) (_iopub_socket x).
Definition set_control_stream_attr (v : option stream) (x : wrapper) : wrapper :=
  Build_wrapper (_connection_filename x) (_thread x) (_shell_stream x) v
    (_kernel x) (_user_ns x) (_banner x) (_logger x) (_session_key x)
    (_connection_info x) (_shell_socket x) (_control_socket x) (_iopub_socket x).
Definition set_kernel_attr (v : option kernel) (x : wrapper) : wrapper :=
  Build_wrapper (_connection_filename x) (_thread x) (_shell_stream x)
    (_control_stream x) v (_user_ns x) (_banner x) (_logger x) (_session_key x)
    (_connection_info x) (_shell_socket x) (_control_socket x) (_iopub_socket x).

(** [threading.current_thread() is self._thread]. *)
Definition current_thread_is_self_thread : M bool :=
  fun w => (Ok (match _thread (w_self w) with
                | Some t => Nat.eqb t (w_cur w)
                | None => false
                end), w).

Definition assert_background_thread : M unit :=
  b <- current_thread_is_self_thread ;; py_assert b.

(** [ZMQStream(sock)] (external). *)
Definition zmq_stream (sock : nat) : M stream :=
  emit (EvNewStream sock) ;; ext (XZMQStream sock) ;; ret (ZMQStream sock).

Definition set_shell_stream (v : stream) : M unit :=
  self <- get_self ;; put_self (set_shell_stream_attr (Some v) self) ;; emit EvSetShellStream.
Definition set_control_stream (v : stream) : M unit :=
  self <- get_self ;; put_self (set_control_stream_attr (Some v) self) ;; emit EvSetControlStream.
Definition set_kernel (k : kernel) : M unit :=
  self <- get_self ;; put_self (set_kernel_attr (Some k) self) ;; emit EvSetKernel.

(**
<<
    def _setup_streams(self):
        assert threading.current_thread() is self._thread
        with self._condition:
            self._shell_stream = ZMQStream(self._shell_socket)
            self._control_stream = ZMQStream(self._control_socket)
            self._condition.notify_all()
>> *)
Definition _setup_streams : M unit :=
  assert_background_thread ;;
  with_condition (
    self <- get_self ;;
    sh <- attr (_shell_socket self) ;;
    st <- zmq_stream sh ;;
    set_shell_stream st ;;
    self <- get_self ;;
    cs <- attr (_control_socket self) ;;
    ct <- zmq_stream cs ;;
    set_control_stream ct ;;
    notify_all).

(** [IPythonKernel(...)] (external). *)
Definition ipython_kernel (args : kernel_args) : M kernel :=
  emit (EvNewKernel args) ;; ext XIPythonKernel ;; ret (IPythonKernel args).

(**
<<
    def _create_kernel(self):
        assert threading.current_thread() is self._thread
        config = Config()
        config.InteractiveShell.banner2 = self._banner
        config.HistoryAccessor.connection_options = dict(check_same_thread=False)
        kernel = IPythonKernel(
            session=self._session,
            shell_streams=[self._shell_stream, self._control_stream],
            iopub_socket=self._iopub_socket,
            log=self._logger,
            user_ns=self._user_ns,
            config=config)
        with self._condition:
            self._kernel = kernel
            self._condition.notify_all()
>> *)
Definition _create_kernel : M unit :=
  assert_background_thread ;;
  self <- get_self ;;
  let config :=
    {| cfg_InteractiveShell_banner2 := Some (_banner self);
       cfg_HistoryAccessor_check_same_thread := Some false |} in
  iopub <- attr (_iopub_socket self) ;;
  kernel <- ipython_kernel
              {| ka_session := _session_key self;
                 ka_shell_streams := [_shell_stream self; _control_stream self];
                 ka_iopub_socket := iopub;
                 ka_log := _logger self;
                 ka_user_ns := _user_ns self;
                 ka_config := config |} ;;
  with_condition (set_kernel kernel ;; notify_all).

(**
<<
    def _start_kernel(self):
        assert threading.current_thread() is self._thread
        self._setup_streams()
        self._create_kernel()
        self._logger.info("IPython: Start kernel now. ...")
        self._kernel.start()
>> *)
Definition _start_kernel : M unit :=
  assert_background_thread ;;
  _setup_streams ;;
  _create_kernel ;;
  logger_info ;;
  self <- get_self ;;
  k <- attr (_kernel self) ;;
  emit EvKernelStart ;;
  ext XKernelStart.

(** Whether a call has returned, or is still running when the bounded
    run of an endless loop ends. *)
Inductive status := Returned | StillRunning.

Definition is_keyboard_interrupt (e : exc) : bool :=
  match e with KeyboardInterrupt => true | _ => false end.

(** An [asyncio] handle runs its callback; [KeyboardInterrupt] (and
    [SystemExit]) propagate, every other exception goes to the loop's
    exception handler and the loop goes on. *)
Definition run_handle (h : M unit) : M unit :=
  try_except h (fun e => negb (is_keyboard_interrupt e))
    (fun e => emit (EvCallbackException e)).

Fixpoint run_handles (hs : list (M unit)) : M unit :=
  match hs with
  | [] => ret tt
  | h :: r => run_handle h ;; run_handles r
  end.

Definition option_eq_nat (o : option nat) (i : nat) : bool :=
  match o with Some j => Nat.eqb j i | None => false end.

(** [loop.run_forever()], run for [fuel] iterations; iteration [i] is cut
    by a [KeyboardInterrupt] when the environment delivers one there.
    The callbacks scheduled by [call_soon] run in the first iteration;
    later iterations serve the kernel's requests.  When a callback of
    iteration [i] calls [loop.stop()] (the kernel's [shutdown_request]
    stops its IOLoop, which is this loop), [run_forever] returns normally
    once the iteration is over. *)
Fixpoint run_iterations (ready : list (M unit)) (i fuel : nat) : M status :=
  match fuel with
  | O => ret StillRunning
  | S f =>
      e <- get_env ;;
      if option_eq_nat (env_ki_at e) i
      then emit EvKeyboardInterrupt ;; raise KeyboardInterrupt
      else emit (EvLoopIteration i) ;; run_handles ready ;;
           if option_eq_nat (env_stop_at e) i
           then emit EvLoopStop ;; ret Returned
           else run_iterations [] (S i) f
  end.

Definition run_forever (ready : list (M unit)) (fuel : nat) : M status :=
  emit EvRunForever ;; run_iterations ready 0 fuel.

(**
<<
    def _thread_loop(self):
        assert threading.current_thread() is self._thread
        loop = asyncio.new_event_loop()
        loop.call_soon(self._start_kernel)
        try:
            loop.run_forever()
        except KeyboardInterrupt:
            pass
>> *)
Definition _thread_loop (fuel : nat) : M status :=
  assert_background_thread ;;
  emit EvNewEventLoop ;;
  emit EvCallSoon ;;
  try_except (run_forever [_start_kernel] fuel) is_keyboard_interrupt
    (fun _ => ret Returned).

(** [threading.Thread(target=..., name=...)]. *)
Definition Thread (tg : target) (name : pystr) : M nat :=
  fun w => let t := w_next_tid w in
           (Ok t, upd_trace (w_trace w ++ [EvNewThread t])
                    (upd_threads ((t, {| th_target := tg; th_name := name;
                                         th_daemon := false; th_started := false |})
                                  :: w_threads w) (S t) w)).

Definition update_thread (t : nat) (f : thread -> thread) : M unit :=
  fun w => (Ok tt, upd_threads (map (fun '(u, r) => if Nat.eqb u t then (u, f r) else (u, r))
                                  (w_threads w)) (w_next_tid w) w).

Fixpoint lookup_thread (t : nat) (l : list (nat * thread)) : option thread :=
  match l with
  | [] => None
  | (u, r) :: rest => if Nat.eqb u t then Some r else lookup_thread t rest
  end.

(** [thread.daemon = True]. *)
Definition set_daemon (t : nat) : M unit :=
  update_thread t (fun r => {| th_target := th_target r; th_name := th_name r;
                               th_daemon := true; th_started := th_started r |}) ;;
  emit (EvSetDaemon t).

(** [thread.start()]: a thread can be started once; the new thread runs
    its target on its own, the caller goes on.  The caller's steps and the
    new thread's run are modelled as two separate runs: the new thread's
    run starts from the state right after [start()] (with [w_cur] set to
    the new thread), and no interleaving with later steps of the caller is
    modelled. *)
Definition thread_start (t : nat) : M unit :=
  w <- get ;;
  match lookup_thread t (w_threads w) with
  | Some r =>
      if th_started r then raise OtherException
      else update_thread t (fun r => {| th_target := th_target r; th_name := th_name r;
                                        th_daemon := th_daemon r; th_started := true |}) ;;
           emit (EvThreadStart t)
  | None => raise AttributeError
  end.

(**
<<
    def start(self):
        thread = threading.Thread(target=self._thread_loop, name="IPython kernel")
        thread.daemon = True
        self._thread = thread
        thread.start()
>> *)
Definition start : M unit :=
  thread <- Thread Target_thread_loop (s "IPython kernel") ;;
  set_daemon thread ;;
  self <- get_self ;;
  put_self (set_thread_attr (Some thread) self) ;;
  emit (EvSetThread thread) ;;
  thread_start thread.

(** [time.sleep(1)], which a [KeyboardInterrupt] may cut. *)
Definition time_sleep (n : nat) : M unit :=
  emit (EvSleep n) ;;
  e <- get_env ;;
  if env_sleep_ki e n then raise KeyboardInterrupt else ret tt.

(**
<<
def _endless_dummy_loop():
    while True:
        try:
            time.sleep(1)
        except KeyboardInterrupt:
            print("KeyboardInterrupt in _endless_dummy_loop")
            return
>> *)
Fixpoint endless_loop_from (n fuel : nat) : M status :=
  match fuel with
  | O => ret StillRunning
  | S f =>
      r <- try_except (time_sleep n ;; ret None) is_keyboard_interrupt
             (fun _ => emit EvPrint ;; ret (Some Returned)) ;;
      match r with
      | Some st => ret st
      | None => endless_loop_from (S n) f
      end
  end.

Definition _endless_dummy_loop (fuel : nat) : M status := endless_loop_from 0 fuel.

End Kernel.

(* ================================================================== *)
(** ** [__init__], [_create_session], [init_ipython_kernel] and [main]:
    lines 27-61 and 181-204 *)

Module Init.

(** The handle of the logger [__init__] builds when none is given
    ([logging.Logger("IPython", level=logging.INFO)] writing to stdout).
    A [Logger] object is always true, so [if not logger] tests for [None]. *)
Definition default_logger : nat := 0.

Definition set_session_key (key : pystr) (x : wrapper) : wrapper :=
  Build_wrapper (_connection_filename x) (_thread x) (_shell_stream x)
    (_control_stream x) (_kernel x) (_user_ns x) (_banner x) (_logger x) key
    (_connection_info x) (_shell_socket x) (_control_socket x) (_iopub_socket x).

(**
<<
    def _create_session(self):
        from jupyter_client.session import Session, new_id_bytes
        self._session = Session(username=u'kernel', key=new_id_bytes())
>>
    [new_id] is the random key [new_id_bytes()] returns; the session is
    named by its key. *)
Definition _create_session (new_id : pystr) : M unit :=
  self <- get_self ;;
  put_self (set_session_key new_id self).

(**
<<
    def __init__(self, connection_filename="kernel.json", connection_fn_with_pid=True,
                 logger=None, user_ns=None, banner="Hello from background-zmq-ipython."):
        self._lock = threading.Lock()
        self._condition = threading.Condition(lock=self._lock)
        if connection_fn_with_pid:
            name, ext = os.path.splitext(connection_filename)
            connection_filename = "%s-%i%s" % (name, os.getpid(), ext)
        self._connection_filename = connection_filename
        self._thread = None
        self._shell_stream = None
        self._control_stream = None
        self._kernel = None
        self._user_ns = user_ns
        self._banner = banner
        if not logger:
            logger = logging.Logger("IPython", level=logging.INFO)
            logger.addHandler(logging.StreamHandler(sys.stdout))
        self._logger = logger
        self._create_session()
        self._create_sockets()
        self._write_connection_file()
>>
    The lock and its condition carry no state of their own in the model
    (see [with_condition]); the attributes not yet assigned are [None]. *)
Definition __init__ (connection_filename : pystr) (connection_fn_with_pid : bool)
    (logger : option nat) (user_ns : user_ns) (banner : pystr) (new_id : pystr) : M unit :=
  e <- get_env ;;
  let connection_filename :=
    ConnFile.connection_filename connection_filename connection_fn_with_pid (env_pid e) in
  let logger := match logger with Some l => l | None => default_logger end in
  put_self {| _connection_filename := connection_filename;
              _thread := None;
              _shell_stream := None;
              _control_stream := None;
              _kernel := None;
              _user_ns := user_ns;
              _banner := banner;
              _logger := logger;
              _session_key := [];
              _connection_info := None;
              _shell_socket := None;
              _control_socket := None;
              _iopub_socket := None |} ;;
  _create_session new_id ;;
  Sockets._create_sockets ;;
  WriteConn._write_connection_file.

(**
<<
def init_ipython_kernel( **kwargs):
    kernel_wrapper = IPythonBackgroundKernelWrapper( **kwargs)
    kernel_wrapper.start()
>> *)
Definition init_ipython_kernel (connection_filename : pystr) (connection_fn_with_pid : bool)
    (logger : option nat) (user_ns : user_ns) (banner : pystr) (new_id : pystr) : M unit :=
  __init__ connection_filename connection_fn_with_pid logger user_ns banner new_id ;;
  Kernel.start.

(**
<<
def main():
    init_ipython_kernel(user_ns={"demo_var": 42})
    _endless_dummy_loop()
>>
    with the defaults of [__init__] for the other arguments. *)
Definition main (new_id : pystr) (fuel : nat) : M Kernel.status :=
  init_ipython_kernel (s "kernel.json") true None (Some [(s "demo_var", 42%Z)])
    (s "Hello from background-zmq-ipython.") new_id ;;
  Kernel._endless_dummy_loop fuel.

End Init.

(* ================================================================== *)
(** ** A concrete process: [main()] with [user_ns={"demo_var": 42}] *)

Module Demo.

Definition demo_env (ki_at : option nat) : env :=
  {| env_raises := fun _ => None;
     env_port := fun n => (50000 + Z.of_nat n)%Z;
     env_ip := s "127.0.0.1";
     env_pid := 4321%N;
     env_new_file_mode := 420%Z;      (* 0o644 *)
     env_write_partial := false;
     env_ki_at := ki_at;
     env_stop_at := None;
     env_sleep_ki := fun n => Nat.eqb n 2 |}.

Definition demo_wrapper : wrapper :=
  {| _connection_filename := ConnFile.connection_filename (s "kernel.json") true 4321;
     _thread := None;
     _shell_stream := None;
     _control_stream := None;
     _kernel := None;
     _user_ns := Some [(s "demo_var", 42%Z)];
     _banner := s "Hello from background-zmq-ipython.";
     _logger := 0;
     _session_key := s "secret";
     _connection_info := None;
     _shell_socket := None;
     _control_socket := None;
     _iopub_socket := None |}.

Definition demo_world (ki_at : option nat) : world :=
  {| w_fs := {| fs_files := []; fs_unlink_error := fun _ => None |};
     w_atexit := [];
     w_trace := [];
     w_cur := 0;
     w_threads := [];
     w_next_tid := 1;
     w_next_ctx := 0;
     w_sockets := [];
     w_heartbeats := [];
     w_ports_used := 0;
     w_self := demo_wrapper;
     w_env := demo_env ki_at |}.

(** The wrapper after [__init__] ([_create_sockets] and
    [_write_connection_file]) and [start()]. *)
Definition demo_started (ki_at : option nat) : world :=
  snd ((Sockets._create_sockets ;; WriteConn._write_connection_file ;; Kernel.start)
         (demo_world ki_at)).

(** The same world, seen from the spawned thread (thread 1 is the
    heartbeat's, thread 2 the kernel's). *)
Definition demo_on_thread (ki_at : option nat) : world :=
  Kernel.upd_cur 2 (demo_started ki_at).

End Demo.

(* ================================================================== *)
(** * Properties *)

Lemma splitext_scan_app (fuel : nat) (p : pystr) (d fi : Z) :
  fst (splitext_scan p d fi fuel) ++ snd (splitext_scan p d fi fuel) = p.
Proof.
  revert fi; induction fuel as [|f IH]; intros fi; simpl.
  - apply app_nil_r.
  - destruct (fi <? d)%Z.
    + destruct (negb _); simpl; [apply firstn_skipn | apply IH].
    + apply app_nil_r.
Qed.

Lemma splitext_app (p : pystr) : fst (splitext p) ++ snd (splitext p) = p.
Proof.
  unfold splitext; destruct (_ <? _)%Z.
  - apply splitext_scan_app.
  - apply app_nil_r.
Qed.

Example connection_filename_kernel_json :
  ConnFile.connection_filename (s "kernel.json") true 4321 = s "kernel-4321.json".
Proof. reflexivity. Qed.

Example connection_filename_no_ext :
  ConnFile.connection_filename (s "dir.d/kernel") true 77 = s "dir.d/kernel-77".
Proof. reflexivity. Qed.

(** Claim C4: the computed connection filename is
    [<base_without_ext>-<pid><ext>] (with [splitext] splitting the base)
    exactly when pid-suffixing is enabled, and otherwise the base filename
    itself. *)
Theorem connection_filename_spec (base : pystr) (with_pid : bool) (pid : N) :
  (ConnFile.connection_filename base with_pid pid
     = fst (splitext base) ++ s "-" ++ fmt_int pid ++ snd (splitext base)
   <-> with_pid = true)
  /\ (with_pid = false -> ConnFile.connection_filename base with_pid pid = base).
Proof.
  unfold ConnFile.connection_filename.
  split.
  - destruct with_pid.
    + destruct (splitext base) as [name ext]; simpl; tauto.
    + split; [|discriminate].
      intros H.
      pose proof (splitext_app base) as Happ.
      destruct (splitext base) as [name ext]; simpl in *.
      apply (f_equal (@List.length ascii)) in H.
      rewrite <- Happ in H.
      rewrite !length_app in H; simpl in H; rewrite ?length_app in H; lia.
  - intros ->; reflexivity.
Qed.

Example cleanup_twice_example :
  let x0 := {| fs_files := [(s "k-1.json", {| f_mode := 448; f_key := s "k";
                 f_info := {| ci_ip := s "127.0.0.1"; ci_shell_port := 1;
                   ci_iopub_port := 2; ci_control_port := 3; ci_hb_port := 4 |} |})];
               fs_unlink_error := fun _ => None |} in
  let '(r1, x1) := Cleanup.cleanup_connection_file (s "k-1.json") x0 in
  let '(r2, x2) := Cleanup.cleanup_connection_file (s "k-1.json") x1 in
  r1 = Ok tt /\ r2 = Ok tt /\ exists_file (s "k-1.json") x2 = false.
Proof. vm_compute. auto. Qed.

Lemma lookup_remove_file (p : pystr) (l : list (pystr * file)) :
  lookup_file p (remove_file p l) = None.
Proof.
  induction l as [|[q f] r IH]; simpl; [reflexivity|].
  destruct (pystr_eqb p q) eqn:E; simpl; [exact IH|].
  rewrite E; exact IH.
Qed.

Lemma cleanup_cases (fn : pystr) (x : fs) :
  has_nul fn = false ->
  (Cleanup.cleanup_connection_file fn x = (Ok tt, x)
   /\ (fs_unlink_error x fn <> None \/ exists_file fn x = false))
  \/ (Cleanup.cleanup_connection_file fn x
        = (Ok tt, set_files (remove_file fn (fs_files x)) x)
      /\ fs_unlink_error x fn = None).
Proof.
  intros Hn.
  unfold Cleanup.cleanup_connection_file, os_remove, exists_file.
  rewrite Hn.
  destruct (lookup_file fn (fs_files x)) eqn:L.
  - destruct (fs_unlink_error x fn) eqn:U.
    + left; split; [reflexivity|left; discriminate].
    + right; split; reflexivity.
  - left; split; [reflexivity|right; reflexivity].
Qed.

Definition kernel_file : file :=
  {| f_mode := 420; f_key := s "secret";
     f_info := {| ci_ip := s "127.0.0.1"; ci_shell_port := 50001;
                  ci_iopub_port := 50002; ci_control_port := 50003;
                  ci_hb_port := 50004 |} |}.

(** A file system where the connection file exists but its directory
    refuses the unlink. *)
Definition fs_unlink_refused : fs :=
  {| fs_files := [(s "kernel-1.json", kernel_file)];
     fs_unlink_error := fun _ => Some PermissionError |}.

(** Claim C6 (counterexample): when the OS refuses the removal with a
    permission error, the cleanup swallows the error and the connection
    file still exists after two invocations. *)
Lemma cleanup_connection_file_refused_keeps_file :
  ~ (forall (fn : pystr) (x : fs),
       let x1 := snd (Cleanup.cleanup_connection_file fn x) in
       let x2 := snd (Cleanup.cleanup_connection_file fn x1) in
       fst (Cleanup.cleanup_connection_file fn x) = Ok tt
       /\ fst (Cleanup.cleanup_connection_file fn x1) = Ok tt
       /\ exists_file fn x2 = false).
Proof.
  intros H.
  destruct (H (s "kernel-1.json") fs_unlink_refused) as [_ [_ H2]].
  vm_compute in H2; discriminate.
Qed.

Lemma cleanup_nul (fn : pystr) (x : fs) :
  has_nul fn = true -> Cleanup.cleanup_connection_file fn x = (Exc ValueError, x).
Proof.
  intros Hn; unfold Cleanup.cleanup_connection_file, os_remove; rewrite Hn; reflexivity.
Qed.

(** Claim C6 (amended): for a connection filename without a NUL byte, the
    cleanup never raises, also when invoked twice or on a missing file; a
    second invocation changes nothing; it deletes the file whenever the OS
    allows the unlink, and when the unlink fails with an OS error (missing
    file, permission denied, ...) the error is swallowed and the file
    system is left as it was.  For a filename with a NUL byte, [os.remove]
    raises [ValueError], which [except (IOError, OSError)] does not catch:
    the cleanup raises it and the file system is left as it was. *)
Theorem cleanup_connection_file_best_effort (fn : pystr) (x : fs) :
  let x1 := snd (Cleanup.cleanup_connection_file fn x) in
  (has_nul fn = false ->
     fst (Cleanup.cleanup_connection_file fn x) = Ok tt
     /\ fst (Cleanup.cleanup_connection_file fn x1) = Ok tt
     /\ snd (Cleanup.cleanup_connection_file fn x1) = x1
     /\ (fs_unlink_error x fn = None -> exists_file fn x1 = false)
     /\ (fs_unlink_error x fn <> None \/ exists_file fn x = false -> x1 = x))
  /\ (has_nul fn = true -> Cleanup.cleanup_connection_file fn x = (Exc ValueError, x)).
Proof.
  simpl; split; [intros Hn|apply cleanup_nul].
  destruct (cleanup_cases fn x Hn) as [[E1 Hx] | [E1 Hx]]; rewrite E1; simpl.
  - rewrite E1; simpl.
    repeat split; try reflexivity.
    intros HN. destruct Hx as [Hx|Hx]; [contradiction|exact Hx].
  - unfold Cleanup.cleanup_connection_file at 1 2, os_remove; simpl.
    rewrite Hn, lookup_remove_file.
    repeat split; try reflexivity.
    + intros _; unfold exists_file; simpl; rewrite lookup_remove_file; reflexivity.
    + intros [H|H]; [contradiction|].
      unfold exists_file in H.
      unfold Cleanup.cleanup_connection_file, os_remove in E1.
      rewrite Hn in E1.
      destruct (lookup_file fn (fs_files x)); [discriminate|].
      injection E1 as E1; symmetry; exact E1.
Qed.

(** Operations that leave the [atexit] registry alone and only append to
    the trace. *)
Definition keeps_atexit {A} (m : M A) : Prop :=
  forall w, w_atexit (snd (m w)) = w_atexit w
            /\ exists l, w_trace (snd (m w)) = w_trace w ++ l.

Lemma keeps_atexit_ret {A} (a : A) : keeps_atexit (ret a).
Proof. intros w; split; [reflexivity|exists []; rewrite app_nil_r; reflexivity]. Qed.

Lemma keeps_atexit_raise {A} (e : exc) : keeps_atexit (@raise A e).
Proof. intros w; split; [reflexivity|exists []; rewrite app_nil_r; reflexivity]. Qed.

Lemma keeps_atexit_emit (e : event) : keeps_atexit (emit e).
Proof. intros w; split; [reflexivity|exists [e]; reflexivity]. Qed.

Lemma keeps_atexit_bind {A B} (m : M A) (k : A -> M B) :
  keeps_atexit m -> (forall a, keeps_atexit (k a)) -> keeps_atexit (bind m k).
Proof.
  intros Hm Hk w; unfold bind.
  destruct (Hm w) as [A1 [l1 T1]].
  destruct (m w) as [[a|e] w'] eqn:E; simpl in *.
  - destruct (Hk a w') as [A2 [l2 T2]].
    split; [congruence|].
    exists (l1 ++ l2); rewrite T2, T1, app_assoc; reflexivity.
  - split; [exact A1|exists l1; exact T1].
Qed.

Lemma keeps_atexit_ext (c : ext_call) : keeps_atexit (ext c).
Proof.
  intros w; unfold ext; destruct (env_raises (w_env w) c);
    (split; [reflexivity|exists []; rewrite app_nil_r; reflexivity]).
Qed.

Lemma keeps_atexit_attr {A} (o : option A) : keeps_atexit (attr o).
Proof. destruct o; [apply keeps_atexit_ret|apply keeps_atexit_raise]. Qed.

Lemma keeps_atexit_write (fn key : pystr) (info : conn_info) :
  keeps_atexit (WriteConn.ipykernel_write_connection_file fn key info).
Proof.
  apply keeps_atexit_bind; [apply keeps_atexit_emit|intros _ w].
  destruct (env_raises (w_env w) XWriteConnectionFile);
    [destruct (env_write_partial (w_env w))|];
    (split; [reflexivity|exists []; rewrite app_nil_r; reflexivity]).
Qed.

Lemma keeps_atexit_stat (fn : pystr) : keeps_atexit (WriteConn.os_stat_st_mode fn).
Proof.
  intros w; unfold WriteConn.os_stat_st_mode.
  destruct (lookup_file fn (fs_files (w_fs w)));
    (split; [reflexivity|exists []; rewrite app_nil_r; reflexivity]).
Qed.

Lemma keeps_atexit_chmod (fn : pystr) (mode : Z) : keeps_atexit (WriteConn.os_chmod fn mode).
Proof.
  apply keeps_atexit_bind; [apply keeps_atexit_emit|intros _].
  apply keeps_atexit_bind; [apply keeps_atexit_ext|intros _ w].
  destruct (lookup_file fn (fs_files (w_fs w)));
    (split; [reflexivity|exists []; rewrite app_nil_r; reflexivity]).
Qed.

Create HintDb keeps_atexit_db.
#[local] Hint Resolve keeps_atexit_ret keeps_atexit_raise keeps_atexit_emit
  keeps_atexit_ext keeps_atexit_attr keeps_atexit_write keeps_atexit_stat
  keeps_atexit_chmod : keeps_atexit_db.

(** An environment where the calls [bad] selects raise [x]. *)
Definition env_raising (base : env) (bad : ext_call -> bool) (x : exc) : env :=
  {| env_raises := fun c => if bad c then Some x else env_raises base c;
     env_port := env_port base;
     env_ip := env_ip base;
     env_pid := env_pid base;
     env_new_file_mode := env_new_file_mode base;
     env_write_partial := env_write_partial base;
     env_ki_at := env_ki_at base;
     env_stop_at := env_stop_at base;
     env_sleep_ki := env_sleep_ki base |}.

Definition upd_env (e : env) (w : world) : world :=
  Build_world (w_fs w) (w_atexit w) (w_trace w) (w_cur w) (w_threads w) (w_next_tid w)
    (w_next_ctx w) (w_sockets w) (w_heartbeats w) (w_ports_used w) (w_self w) e.

Definition is_write_call (c : ext_call) : bool :=
  match c with XWriteConnectionFile => true | _ => false end.



Lemma update_nth_last {A} (l : list A) (f : A -> A) (x : A) :
  Sockets.update_nth (List.length l) f (l ++ [x]) = l ++ [f x].
Proof. induction l as [|y r IH]; simpl; [reflexivity|rewrite IH; reflexivity]. Qed.

Lemma nth_error_last {A} (l : list A) (x : A) :
  nth_error (l ++ [x]) (List.length l) = Some x.
Proof. induction l as [|y r IH]; simpl; [reflexivity|exact IH]. Qed.

(** Running [_create_sockets] symbolically on a world whose library calls
    do not raise. *)
Ltac sockets_rewrite Hok :=
  let H1 := fresh in let H2 := fresh in let H3 := fresh in let H4 := fresh in
  match type of Hok with
  | sockets_ok ?e =>
      pose proof (Hok XZMQContext eq_refl) as H1;
      pose proof (Hok XGetHostByName eq_refl) as H2;
      pose proof (Hok XHeartbeat eq_refl) as H3;
      assert (H4 : forall k, env_raises e (XBind k) = None)
        by (intros ?k; apply Hok; reflexivity)
  end;
  simpl w_env in H1, H2, H3, H4;
  repeat (first [rewrite H1|rewrite H2|rewrite H3|rewrite H4
                |rewrite update_nth_last|rewrite nth_error_last]; cbv beta iota).

Ltac sockets_run Hok :=
  cbv beta iota zeta delta [Sockets._create_sockets bind Sockets.zmq_Context get_env ext
    Sockets.context_socket Sockets.bind_to_random_port Sockets.Heartbeat
    Sockets.heartbeat_port Sockets.heartbeat_start Sockets.set_sockets emit
    get_self put_self upd_trace upd_zmq upd_self upd_threads fst snd
    w_fs w_atexit w_trace w_cur w_threads w_next_tid w_next_ctx w_sockets
    w_heartbeats w_ports_used w_self w_env];
  sockets_rewrite Hok.

Lemma lookup_mark_started (t u : nat) (l : list (nat * thread)) :
  Kernel.lookup_thread u (Sockets.mark_started t l)
  = if Nat.eqb u t
    then option_map (fun r => {| th_target := th_target r; th_name := th_name r;
                                 th_daemon := th_daemon r; th_started := true |})
           (Kernel.lookup_thread u l)
    else Kernel.lookup_thread u l.
Proof.
  unfold Sockets.mark_started.
  induction l as [|[v r] l IH]; [simpl; destruct (u =? t); reflexivity|].
  cbn [map Kernel.lookup_thread].
  destruct (Nat.eqb_spec v t) as [Evt|Evt]; cbn [Kernel.lookup_thread];
    destruct (Nat.eqb_spec v u) as [Evu|Evu]; subst; rewrite ?Nat.eqb_refl;
    try reflexivity; try exact IH.
  destruct (Nat.eqb_spec u t); [congruence|reflexivity].
Qed.

Lemma lookup_new_started (t u : nat) (r : thread) (l : list (nat * thread)) :
  Kernel.lookup_thread u (Sockets.mark_started t ((t, r) :: l))
  = if Nat.eqb t u
    then Some {| th_target := th_target r; th_name := th_name r;
                 th_daemon := th_daemon r; th_started := true |}
    else Kernel.lookup_thread u l.
Proof.
  rewrite lookup_mark_started; cbn [Kernel.lookup_thread].
  destruct (Nat.eqb_spec u t) as [->|Hut]; [rewrite Nat.eqb_refl; reflexivity|].
  destruct (Nat.eqb_spec t u); [congruence|reflexivity].
Qed.

(** The started thread of the [i]-th heartbeat. *)
Definition heartbeat_thread (i : nat) : thread :=
  {| th_target := Target_heartbeat i; th_name := s "Heartbeat";
     th_daemon := true; th_started := true |}.

(** Claim C7: when none of its library calls raises, [_create_sockets]
    creates exactly three sockets, all in one fresh context: a ROUTER socket
    for shell requests, a PUB socket for side-channel output and a ROUTER
    socket for control requests, each bound by [bind_to_random_port] on the
    transport address (with the default port range, pyzmq binds [addr:*]
    and the OS picks the port); it then creates a heartbeat requesting port
    0 (a free port picked by the heartbeat) in a second fresh context,
    distinct from the first, in which this code opens no socket, and
    starts the heartbeat's daemon thread. *)
Theorem create_sockets_three_sockets_separate_heartbeat (w : world)
    (Hok : sockets_ok (w_env w)) :
  let w' := snd (Sockets._create_sockets w) in
  let ctx := w_next_ctx w in
  let hb := S ctx in
  let ip := env_ip (w_env w) in
  let addr := s "tcp" ++ s "://" ++ ip in
  let port k := env_port (w_env w) (w_ports_used w + k) in
  let n := List.length (w_sockets w) in
  let t := w_next_tid w in
  fst (Sockets._create_sockets w) = Ok tt
  /\ w_sockets w' = w_sockets w ++
       [ {| s_ctx := ctx; s_type := ROUTER; s_bound := Some (addr ++ s ":*", port 0) |};
         {| s_ctx := ctx; s_type := PUB; s_bound := Some (addr ++ s ":*", port 1) |};
         {| s_ctx := ctx; s_type := ROUTER; s_bound := Some (addr ++ s ":*", port 2) |} ]
  /\ w_heartbeats w' = w_heartbeats w ++
       [ {| hb_ctx := hb; hb_transport := s "tcp"; hb_ip := ip; hb_requested_port := 0;
            hb_port := port 3; hb_thread := t; hb_started := true |} ]
  /\ hb <> ctx
  /\ w_next_ctx w' = S hb
  /\ Kernel.lookup_thread t (w_threads w') =
     Some {| th_target := Target_heartbeat (List.length (w_heartbeats w));
             th_name := s "Heartbeat"; th_daemon := true; th_started := true |}
  /\ w_next_tid w' = S t
  /\ _shell_socket (w_self w') = Some n
  /\ _iopub_socket (w_self w') = Some (S n)
  /\ _control_socket (w_self w') = Some (S (S n)).
Proof.
  destruct w as [fs0 atx tr cur ths ntid nctx socks hbs ports self e].
  sockets_run Hok.
  rewrite <- !app_assoc, !length_app, !Nat.add_succ_r, !Nat.add_0_r.
  repeat split; try reflexivity; try lia; simpl; rewrite ?Nat.eqb_refl; try reflexivity;
    f_equal; lia.
Qed.

(** The demo world satisfies the hypothesis of claim C7. *)
Lemma create_sockets_three_sockets_separate_heartbeat_witness :
  sockets_ok (w_env (Demo.demo_world None))
  /\ fst (Sockets._create_sockets (Demo.demo_world None)) = Ok tt.
Proof.
  assert (H : sockets_ok (w_env (Demo.demo_world None))) by (intros c _; reflexivity).
  split; [exact H|].
  exact (proj1 (create_sockets_three_sockets_separate_heartbeat (Demo.demo_world None) H)).
Defined.


(** ** The background thread's invariant *)

(** The thread running the code is the one recorded by [start()]. *)
Definition on_recorded_thread (w : world) : Prop := _thread (w_self w) = Some (w_cur w).

(** Events the background code may emit: no failed assertion, and no
    second [run_forever]. *)
Definition good_event (e : event) : Prop := e <> EvAssert false /\ e <> EvRunForever.

(** A computation of the background thread that keeps the thread
    invariant and the environment, and only appends good events. *)
Definition clean {A} (m : M A) : Prop :=
  forall w, on_recorded_thread w ->
    on_recorded_thread (snd (m w)) /\ w_env (snd (m w)) = w_env w
    /\ exists l, w_trace (snd (m w)) = w_trace w ++ l /\ Forall good_event l.

Ltac clean_fin :=
  repeat split; try assumption; try reflexivity;
  try (exists []; split; [rewrite app_nil_r; reflexivity|constructor]).

Ltac clean_base := intros ?w ?Hw; clean_fin.

Lemma clean_ret {A} (a : A) : clean (ret a).
Proof. clean_base. Qed.

Lemma clean_raise {A} (e : exc) : clean (@raise A e).
Proof. clean_base. Qed.

Lemma clean_get : clean get.
Proof. clean_base. Qed.

Lemma clean_get_self : clean get_self.
Proof. clean_base. Qed.

Lemma clean_get_env : clean get_env.
Proof. clean_base. Qed.

Lemma clean_emit (e : event) : good_event e -> clean (emit e).
Proof.
  intros He w Hw; repeat split; try exact Hw.
  exists [e]; split; [reflexivity|constructor; [exact He|constructor]].
Qed.

Lemma clean_bind {A B} (m : M A) (k : A -> M B) :
  clean m -> (forall a, clean (k a)) -> clean (bind m k).
Proof.
  intros Hm Hk w Hw; unfold bind.
  destruct (Hm w Hw) as [I1 [E1 [l1 [T1 F1]]]].
  destruct (m w) as [[a|e] w'] eqn:E; simpl in *.
  - destruct (Hk a w' I1) as [I2 [E2 [l2 [T2 F2]]]].
    repeat split; [exact I2|congruence|].
    exists (l1 ++ l2); split; [rewrite T2, T1, app_assoc; reflexivity|].
    apply Forall_app; split; assumption.
  - repeat split; [exact I1|exact E1|exists l1; split; assumption].
Qed.

Lemma clean_ext (c : ext_call) : clean (ext c).
Proof. intros w Hw; unfold ext; destruct (env_raises (w_env w) c); clean_fin. Qed.

Lemma clean_attr {A} (o : option A) : clean (attr o).
Proof. destruct o; [apply clean_ret|apply clean_raise]. Qed.

Lemma clean_try_except {A} (m : M A) (handled : exc -> bool) (h : exc -> M A) :
  clean m -> (forall e, clean (h e)) -> clean (try_except m handled h).
Proof.
  intros Hm Hh w Hw; unfold try_except.
  destruct (Hm w Hw) as [I1 [E1 [l1 [T1 F1]]]].
  destruct (m w) as [[a|e] w'] eqn:E; simpl in *.
  - repeat split; [exact I1|exact E1|exists l1; split; assumption].
  - destruct (handled e).
    + destruct (Hh e w' I1) as [I2 [E2 [l2 [T2 F2]]]].
      repeat split; [exact I2|congruence|].
      exists (l1 ++ l2); split; [rewrite T2, T1, app_assoc; reflexivity|].
      apply Forall_app; split; assumption.
    + repeat split; [exact I1|exact E1|exists l1; split; assumption].
Qed.

Lemma clean_with_condition {A} (body : M A) : clean body -> clean (with_condition body).
Proof.
  intros Hb; unfold with_condition.
  apply clean_bind; [apply clean_emit; split; discriminate|intros _ w Hw].
  destruct (Hb w Hw) as [I1 [E1 [l1 [T1 F1]]]].
  destruct (body w) as [r w'] eqn:E; simpl in *.
  repeat split; [exact I1|exact E1|].
  exists (l1 ++ [EvRelease]); split; [rewrite T1, app_assoc; reflexivity|].
  apply Forall_app; split; [exact F1|constructor; [split; discriminate|constructor]].
Qed.

Create HintDb clean_db.
#[local] Hint Resolve clean_ret clean_raise clean_get clean_get_self clean_get_env
  clean_ext clean_attr : clean_db.

Ltac clean_steps :=
  repeat first
    [ progress auto with clean_db
    | apply clean_with_condition
    | apply clean_try_except; [| intros ?]
    | apply clean_bind; [| intros ?]
    | apply clean_emit; split; discriminate ].

Lemma clean_assert_background_thread : clean Kernel.assert_background_thread.
Proof.
  intros w Hw; unfold Kernel.assert_background_thread, Kernel.current_thread_is_self_thread,
    py_assert, bind; simpl.
  rewrite Hw, Nat.eqb_refl; simpl.
  repeat split; [exact Hw|].
  exists [EvAssert true]; split; [reflexivity|].
  constructor; [split; discriminate|constructor].
Qed.

Lemma clean_set_shell_stream (v : stream) : clean (Kernel.set_shell_stream v).
Proof.
  intros w Hw; repeat split; [exact Hw|].
  exists [EvSetShellStream]; split; [reflexivity|constructor; [split; discriminate|constructor]].
Qed.

Lemma clean_set_control_stream (v : stream) : clean (Kernel.set_control_stream v).
Proof.
  intros w Hw; repeat split; [exact Hw|].
  exists [EvSetControlStream]; split; [reflexivity|constructor; [split; discriminate|constructor]].
Qed.

Lemma clean_set_kernel (k : kernel) : clean (Kernel.set_kernel k).
Proof.
  intros w Hw; repeat split; [exact Hw|].
  exists [EvSetKernel]; split; [reflexivity|constructor; [split; discriminate|constructor]].
Qed.

#[local] Hint Resolve clean_assert_background_thread clean_set_shell_stream
  clean_set_control_stream clean_set_kernel : clean_db.

Lemma clean_start_kernel : clean Kernel._start_kernel.
Proof.
  unfold Kernel._start_kernel, Kernel._setup_streams, Kernel._create_kernel,
    Kernel.zmq_stream, Kernel.ipython_kernel, notify_all, logger_info.
  clean_steps.
Qed.

Lemma clean_run_handles (hs : list (M unit)) :
  Forall clean hs -> clean (Kernel.run_handles hs).
Proof.
  induction 1 as [|h r Hh Hr IH]; simpl; [apply clean_ret|].
  unfold Kernel.run_handle; clean_steps; assumption.
Qed.

Lemma clean_run_iterations (fuel : nat) :
  forall (ready : list (M unit)) (i : nat),
  Forall clean ready -> clean (Kernel.run_iterations ready i fuel).
Proof.
  induction fuel as [|f IH]; intros ready i Hr; simpl; [apply clean_ret|].
  apply clean_bind; [apply clean_get_env|intros e].
  destruct (Kernel.option_eq_nat (env_ki_at e) i).
  - clean_steps.
  - apply clean_bind; [apply clean_emit; split; discriminate|intros _].
    apply clean_bind; [apply clean_run_handles; exact Hr|intros _].
    destruct (Kernel.option_eq_nat (env_stop_at e) i); [clean_steps|apply IH; constructor].
Qed.

Definition kernel_thread : thread :=
  {| th_target := Target_thread_loop; th_name := s "IPython kernel";
     th_daemon := true; th_started := true |}.

Lemma start_effects (w : world) :
  let t := w_next_tid w in
  let w' := snd (Kernel.start w) in
  fst (Kernel.start w) = Ok tt
  /\ _thread (w_self w') = Some t
  /\ Kernel.lookup_thread t (w_threads w') = Some kernel_thread
  /\ w_next_tid w' = S t
  /\ w_trace w' = w_trace w ++ [EvNewThread t; EvSetDaemon t; EvSetThread t; EvThreadStart t]
  /\ w_cur w' = w_cur w /\ w_env w' = w_env w /\ w_fs w' = w_fs w
  /\ w_atexit w' = w_atexit w /\ w_sockets w' = w_sockets w
  /\ _shell_stream (w_self w') = _shell_stream (w_self w)
  /\ _control_stream (w_self w') = _control_stream (w_self w)
  /\ _kernel (w_self w') = _kernel (w_self w).
Proof.
  destruct w as [fs0 atx tr cur ths ntid nctx socks hbs ports self e].
  cbn.
  rewrite !Nat.eqb_refl.
  cbn; rewrite !Nat.eqb_refl; cbn; rewrite ?Nat.eqb_refl; cbn.
  repeat split; try reflexivity.
  rewrite <- ?app_assoc; reflexivity.
Qed.

(** The first steps of [_thread_loop] on the recorded thread: the
    assertion holds, the loop is created, [_start_kernel] scheduled and
    [run_forever] entered once; a [KeyboardInterrupt] out of it is caught
    and the function returns. *)
Lemma thread_loop_unfold (w : world) (fuel : nat) :
  on_recorded_thread w ->
  Kernel._thread_loop fuel w =
  match Kernel.run_iterations [Kernel._start_kernel] 0 fuel
          (upd_trace (w_trace w ++ [EvAssert true; EvNewEventLoop; EvCallSoon; EvRunForever]) w)
  with
  | (Exc e, w') => if Kernel.is_keyboard_interrupt e then (Ok Kernel.Returned, w') else (Exc e, w')
  | r => r
  end.
Proof.
  intros Hw.
  destruct w as [fs0 atx tr cur ths ntid nctx socks hbs ports self e].
  unfold on_recorded_thread in Hw; simpl in Hw.
  unfold Kernel._thread_loop, Kernel.assert_background_thread,
    Kernel.current_thread_is_self_thread, py_assert, Kernel.run_forever,
    try_except, bind, emit, ret; simpl.
  rewrite Hw, Nat.eqb_refl; simpl.
  unfold upd_trace; simpl.
  rewrite <- !app_assoc; simpl.
  reflexivity.
Qed.

Lemma thread_loop_trace (w : world) (fuel : nat) :
  on_recorded_thread w ->
  exists l, w_trace (snd (Kernel._thread_loop fuel w))
              = w_trace w ++ [EvAssert true; EvNewEventLoop; EvCallSoon; EvRunForever] ++ l
            /\ Forall good_event l.
Proof.
  intros Hw; rewrite (thread_loop_unfold w fuel Hw).
  set (wa := upd_trace (w_trace w ++ [EvAssert true; EvNewEventLoop; EvCallSoon; EvRunForever]) w).
  assert (Ha : on_recorded_thread wa) by exact Hw.
  assert (Hr : Forall clean [Kernel._start_kernel]) by (constructor; [apply clean_start_kernel|constructor]).
  destruct (clean_run_iterations fuel _ 0 Hr wa Ha) as [_ [_ [l [T F]]]].
  destruct (Kernel.run_iterations [Kernel._start_kernel] 0 fuel wa) as [[a|e] w'];
    [|destruct (Kernel.is_keyboard_interrupt e)]; simpl in *;
    (exists l; split; [rewrite T; simpl; rewrite <- app_assoc; reflexivity|exact F]).
Qed.

Lemma run_handles_result (hs : list (M unit)) (w : world) :
  fst (Kernel.run_handles hs w) = Ok tt \/ fst (Kernel.run_handles hs w) = Exc KeyboardInterrupt.
Proof.
  revert w; induction hs as [|h r IH]; intros w; simpl; [left; reflexivity|].
  unfold bind, Kernel.run_handle, try_except.
  destruct (h w) as [[[]|e] w1]; [apply IH|].
  destruct e; simpl; try (unfold emit; simpl; apply IH).
  right; reflexivity.
Qed.

(** The loop ended by a [KeyboardInterrupt] or by [loop.stop()]. *)
Definition ki_or_returned (r : result Kernel.status) : Prop :=
  r = Exc KeyboardInterrupt \/ r = Ok Kernel.Returned.

Lemma run_iterations_interrupted (i fuel : nat) :
  forall (ready : list (M unit)) (j : nat) (w : world),
  Forall clean ready -> on_recorded_thread w -> env_ki_at (w_env w) = Some i ->
  j <= i -> i < j + fuel ->
  ki_or_returned (fst (Kernel.run_iterations ready j fuel w)).
Proof.
  induction fuel as [|f IH]; intros ready j w Hr Hw Hk Hji Hif; [lia|].
  simpl; unfold bind at 1, get_env; simpl.
  rewrite Hk; unfold Kernel.option_eq_nat.
  destruct (Nat.eqb i j) eqn:E; [left; reflexivity|].
  apply Nat.eqb_neq in E.
  unfold bind at 1, emit; simpl.
  set (w1 := upd_trace (w_trace w ++ [EvLoopIteration j]) w).
  assert (H1 : on_recorded_thread w1) by exact Hw.
  destruct (clean_run_handles ready Hr w1 H1) as [H2 [E2 _]].
  destruct (run_handles_result ready w1) as [R|R];
    unfold bind; destruct (Kernel.run_handles ready w1) as [r w2]; simpl in *; subst r;
    [|left; reflexivity].
  assert (Hn : ki_or_returned (fst (Kernel.run_iterations [] (S j) f w2)))
    by (apply IH; [constructor|exact H2|rewrite E2; exact Hk|lia|lia]).
  destruct (env_stop_at (w_env w)) as [k|]; [destruct (k =? j)|];
    [right; reflexivity|exact Hn|exact Hn].
Qed.

Lemma upd_trace_twice (l1 l2 : list event) (w : world) :
  upd_trace l1 (upd_trace l2 w) = upd_trace l1 w.
Proof. reflexivity. Qed.

Lemma endless_loop_from_interrupted (j fuel : nat) :
  forall (n : nat) (w : world),
  n <= j -> j < n + fuel ->
  env_sleep_ki (w_env w) j = true ->
  (forall k, n <= k < j -> env_sleep_ki (w_env w) k = false) ->
  Kernel.endless_loop_from n fuel w
    = (Ok Kernel.Returned,
       upd_trace (w_trace w ++ map EvSleep (seq n (S j - n)) ++ [EvPrint]) w).
Proof.
  induction fuel as [|f IH]; intros n w Hnj Hjf Hj Hk; [lia|].
  destruct (Nat.eq_dec n j) as [->|Hne].
  - replace (S j - j) with 1 by lia.
    simpl; unfold bind, try_except, Kernel.time_sleep, emit, get_env, bind; simpl.
    rewrite Hj; simpl.
    rewrite <- app_assoc; reflexivity.
  - replace (S j - n) with (S (S j - S n)) by lia.
    simpl seq; simpl map.
    simpl Kernel.endless_loop_from.
    unfold Kernel.time_sleep, bind, try_except, emit, get_env, raise, ret; simpl.
    rewrite (Hk n) by lia; simpl.
    rewrite IH by (simpl; try lia; try exact Hj; intros k Hk'; apply Hk; lia).
    simpl.
    rewrite <- app_assoc; reflexivity.
Qed.

(** Claim C5: a [KeyboardInterrupt] delivered to the background event loop
    (at any iteration within the run) is caught by [_thread_loop], which
    returns normally; [run_forever] was entered exactly once, so the loop
    is not restarted.  A [KeyboardInterrupt] cutting the [j]-th
    [time.sleep] of [_endless_dummy_loop] makes it print its message and
    return normally after exactly [j + 1] sleeps. *)
Theorem keyboard_interrupt_ends_loops_locally (w wm : world) (fuel i fuel' j : nat)
  (Hw : on_recorded_thread w) (Hki : env_ki_at (w_env w) = Some i) (Hi : i < fuel)
  (Hj : env_sleep_ki (w_env wm) j = true)
  (Hbefore : forall k, k < j -> env_sleep_ki (w_env wm) k = false)
  (Hj' : j < fuel') :
  (fst (Kernel._thread_loop fuel w) = Ok Kernel.Returned
   /\ exists l1 l2, w_trace (snd (Kernel._thread_loop fuel w))
                      = w_trace w ++ l1 ++ EvRunForever :: l2
                    /\ ~ In EvRunForever l1 /\ ~ In EvRunForever l2)
  /\ Kernel._endless_dummy_loop fuel' wm
       = (Ok Kernel.Returned,
          upd_trace (w_trace wm ++ map EvSleep (seq 0 (S j)) ++ [EvPrint]) wm).
Proof.
  split; [split|].
  - rewrite (thread_loop_unfold w fuel Hw).
    set (wa := upd_trace (w_trace w ++ [EvAssert true; EvNewEventLoop; EvCallSoon; EvRunForever]) w).
    assert (Hr : Forall clean [Kernel._start_kernel])
      by (constructor; [apply clean_start_kernel|constructor]).
    pose proof (run_iterations_interrupted i fuel _ 0 wa Hr Hw Hki ltac:(lia) ltac:(lia)) as R.
    destruct (Kernel.run_iterations [Kernel._start_kernel] 0 fuel wa) as [r w'];
      simpl in R; destruct R as [R|R]; subst r; reflexivity.
  - destruct (thread_loop_trace w fuel Hw) as [l [T F]].
    exists [EvAssert true; EvNewEventLoop; EvCallSoon], l.
    split; [rewrite T; reflexivity|split].
    + simpl; intros [H|[H|[H|H]]]; try discriminate; contradiction.
    + intros Hin; rewrite Forall_forall in F; destruct (F _ Hin) as [_ H]; apply H; reflexivity.
  - unfold Kernel._endless_dummy_loop.
    rewrite (endless_loop_from_interrupted j fuel' 0 wm) by (try lia; try exact Hj;
      intros k Hk; apply Hbefore; lia).
    rewrite Nat.sub_0_r; reflexivity.
Qed.

Lemma keyboard_interrupt_ends_loops_locally_witness :
  on_recorded_thread (Demo.demo_on_thread (Some 2))
  /\ (fst (Kernel._thread_loop 3 (Demo.demo_on_thread (Some 2))) = Ok Kernel.Returned
      /\ exists l1 l2, w_trace (snd (Kernel._thread_loop 3 (Demo.demo_on_thread (Some 2))))
                         = w_trace (Demo.demo_on_thread (Some 2)) ++ l1 ++ EvRunForever :: l2
                       /\ ~ In EvRunForever l1 /\ ~ In EvRunForever l2)
     /\ Kernel._endless_dummy_loop 3 (Demo.demo_world None)
          = (Ok Kernel.Returned,
             upd_trace (w_trace (Demo.demo_world None) ++ map EvSleep (seq 0 3) ++ [EvPrint])
               (Demo.demo_world None)).
Proof.
  split; [vm_compute; reflexivity|].
  apply (keyboard_interrupt_ends_loops_locally (Demo.demo_on_thread (Some 2))
           (Demo.demo_world None) 3 2 3 2).
  - vm_compute; reflexivity.
  - reflexivity.
  - lia.
  - reflexivity.
  - intros k Hk; destruct k as [|[|]]; [reflexivity|reflexivity|lia].
  - lia.
Defined.

(** Claim C8: [start()] returns normally after creating the thread
    ["IPython kernel"] with target [_thread_loop], marking it a daemon,
    recording it in [self._thread] and starting it; the caller's run of
    [start()] consists of exactly these four steps: no step of the
    background thread (no assertion, loop, stream or kernel) is executed or
    awaited, and the streams, the kernel, the files and the sockets are
    untouched. *)
Theorem start_spawns_daemon_thread (w : world) :
  let t := w_next_tid w in
  let w' := snd (Kernel.start w) in
  fst (Kernel.start w) = Ok tt
  /\ _thread (w_self w') = Some t
  /\ Kernel.lookup_thread t (w_threads w') = Some kernel_thread
  /\ th_daemon kernel_thread = true
  /\ w_trace w' = w_trace w ++ [EvNewThread t; EvSetDaemon t; EvSetThread t; EvThreadStart t]
  /\ w_fs w' = w_fs w /\ w_sockets w' = w_sockets w
  /\ _shell_stream (w_self w') = _shell_stream (w_self w)
  /\ _control_stream (w_self w') = _control_stream (w_self w)
  /\ _kernel (w_self w') = _kernel (w_self w).
Proof.
  destruct (start_effects w)
    as [R [T [L [N [Tr [C [E [F [A [S [S1 [S2 K]]]]]]]]]]]].
  repeat split; assumption.
Qed.

(** Claim C9: after one call of [start()], the spawned thread runs
    [_thread_loop] (and, through the event loop, [_start_kernel],
    [_setup_streams] and [_create_kernel]); every assertion
    [threading.current_thread() is self._thread] it evaluates holds, for
    every environment and however long the loop runs: the events of the
    run contain a passing assertion and no failing one. *)
Theorem start_then_background_asserts_hold (w : world) (fuel : nat) :
  let w1 := Kernel.upd_cur (w_next_tid w) (snd (Kernel.start w)) in
  exists l, w_trace (snd (Kernel._thread_loop fuel w1)) = w_trace w1 ++ l
            /\ ~ In (EvAssert false) l /\ In (EvAssert true) l.
Proof.
  intros w1.
  destruct (start_effects w) as [_ [T _]].
  assert (H1 : on_recorded_thread w1) by exact T.
  destruct (thread_loop_trace w1 fuel H1) as [l [Tl F]].
  exists ([EvAssert true; EvNewEventLoop; EvCallSoon; EvRunForever] ++ l).
  split; [exact Tl|split].
  - intros Hin; apply in_app_or in Hin; destruct Hin as [Hin|Hin].
    + simpl in Hin; destruct Hin as [H|[H|[H|[H|H]]]]; try discriminate; contradiction.
    + rewrite Forall_forall in F; destruct (F _ Hin) as [H _]; apply H; reflexivity.
  - left; reflexivity.
Qed.

Lemma bind_ok {A B} (m : M A) (k : A -> M B) (w w' : world) (a : A) :
  m w = (Ok a, w') -> bind m k w = k a w'.
Proof. intros E; unfold bind; rewrite E; reflexivity. Qed.

(** The keyword arguments [_create_kernel] passes to [IPythonKernel]. *)
Definition expected_kernel_args (self : wrapper) (io : nat) : kernel_args :=
  {| ka_session := _session_key self;
     ka_shell_streams := [_shell_stream self; _control_stream self];
     ka_iopub_socket := io;
     ka_log := _logger self;
     ka_user_ns := _user_ns self;
     ka_config := {| cfg_InteractiveShell_banner2 := Some (_banner self);
                     cfg_HistoryAccessor_check_same_thread := Some false |} |}.

Section Streams.

Variables (w : world) (sh cs io : nat).
Hypothesis Hw : on_recorded_thread w.
Hypothesis Hsh : _shell_socket (w_self w) = Some sh.
Hypothesis Hcs : _control_socket (w_self w) = Some cs.
Hypothesis Hio : _iopub_socket (w_self w) = Some io.
Hypothesis Hext : forall c, env_raises (w_env w) c = None.

Lemma setup_streams_run :
  Kernel._setup_streams w
  = (Ok tt,
     upd_self (Kernel.set_control_stream_attr (Some (ZMQStream cs))
                 (Kernel.set_shell_stream_attr (Some (ZMQStream sh)) (w_self w)))
       (upd_trace (w_trace w ++ [EvAssert true; EvAcquire; EvNewStream sh; EvSetShellStream;
                                 EvNewStream cs; EvSetControlStream; EvNotifyAll; EvRelease]) w)).
Proof.
  destruct w as [fs0 atx tr cur ths ntid nctx socks hbs ports self e].
  destruct self as [fn th ss cst k ns bn lg key ci shs css ios].
  unfold on_recorded_thread in Hw; simpl in *; subst.
  unfold Kernel._setup_streams, Kernel.assert_background_thread,
    Kernel.current_thread_is_self_thread, py_assert, with_condition,
    Kernel.zmq_stream, Kernel.set_shell_stream, Kernel.set_control_stream,
    notify_all, ext, attr, bind, emit, get_self, put_self, ret; simpl.
  rewrite Nat.eqb_refl; simpl; rewrite !Hext; simpl.
  cbv beta iota zeta delta [upd_trace upd_self Kernel.set_control_stream_attr
    Kernel.set_shell_stream_attr Kernel.set_kernel_attr w_fs w_atexit w_trace w_cur w_threads
    w_next_tid w_next_ctx w_sockets w_heartbeats w_ports_used w_self w_env
    _connection_filename _thread _shell_stream _control_stream _kernel _user_ns
    _banner _logger _session_key _connection_info _shell_socket _control_socket
    _iopub_socket].
  repeat (rewrite Hext; cbv beta iota).
  rewrite <- !app_assoc; reflexivity.
Qed.

End Streams.

Ltac run_world :=
  cbv beta iota zeta delta [upd_trace upd_self Kernel.set_control_stream_attr
    Kernel.set_shell_stream_attr Kernel.set_kernel_attr w_fs w_atexit w_trace w_cur w_threads
    w_next_tid w_next_ctx w_sockets w_heartbeats w_ports_used w_self w_env
    _connection_filename _thread _shell_stream _control_stream _kernel _user_ns
    _banner _logger _session_key _connection_info _shell_socket _control_socket
    _iopub_socket expected_kernel_args].

Lemma create_kernel_run (w : world) (io : nat) :
  on_recorded_thread w -> _iopub_socket (w_self w) = Some io ->
  (forall c, env_raises (w_env w) c = None) ->
  Kernel._create_kernel w
  = (Ok tt,
     upd_self (Kernel.set_kernel_attr (Some (IPythonKernel (expected_kernel_args (w_self w) io)))
                 (w_self w))
       (upd_trace (w_trace w ++ [EvAssert true; EvNewKernel (expected_kernel_args (w_self w) io);
                                 EvAcquire; EvSetKernel; EvNotifyAll; EvRelease]) w)).
Proof.
  intros Hw Hio Hext.
  destruct w as [fs0 atx tr cur ths ntid nctx socks hbs ports self e].
  destruct self as [fn th ss cst k ns bn lg key ci shs css ios].
  unfold on_recorded_thread in Hw; simpl in *; subst.
  unfold Kernel._create_kernel, Kernel.assert_background_thread,
    Kernel.current_thread_is_self_thread, py_assert, with_condition,
    Kernel.ipython_kernel, Kernel.set_kernel, notify_all, ext, attr, bind, emit,
    get_self, put_self, ret; simpl.
  rewrite Nat.eqb_refl; simpl; rewrite ?Hext; simpl.
  run_world.
  repeat (rewrite Hext; cbv beta iota).
  rewrite <- !app_assoc; reflexivity.
Qed.

Lemma assert_background_thread_run (w : world) :
  on_recorded_thread w ->
  Kernel.assert_background_thread w = (Ok tt, upd_trace (w_trace w ++ [EvAssert true]) w).
Proof.
  intros Hw; unfold Kernel.assert_background_thread, Kernel.current_thread_is_self_thread,
    py_assert, bind, emit, ret; simpl.
  rewrite Hw, Nat.eqb_refl; reflexivity.
Qed.

(** The streams as [_setup_streams] sets them. *)
Definition with_streams (self : wrapper) (sh cs : nat) : wrapper :=
  Kernel.set_control_stream_attr (Some (ZMQStream cs))
    (Kernel.set_shell_stream_attr (Some (ZMQStream sh)) self).

Lemma start_kernel_run (w : world) (sh cs io : nat) :
  on_recorded_thread w ->
  _shell_socket (w_self w) = Some sh -> _control_socket (w_self w) = Some cs ->
  _iopub_socket (w_self w) = Some io ->
  (forall c, env_raises (w_env w) c = None) ->
  let args := expected_kernel_args (with_streams (w_self w) sh cs) io in
  Kernel._start_kernel w
  = (Ok tt,
     upd_self (Kernel.set_kernel_attr (Some (IPythonKernel args)) (with_streams (w_self w) sh cs))
       (upd_trace (w_trace w ++
          [EvAssert true;
           EvAssert true; EvAcquire; EvNewStream sh; EvSetShellStream;
           EvNewStream cs; EvSetControlStream; EvNotifyAll; EvRelease;
           EvAssert true; EvNewKernel args; EvAcquire; EvSetKernel; EvNotifyAll; EvRelease;
           EvLogInfo; EvKernelStart]) w)).
Proof.
  intros Hw Hsh Hcs Hio Hext args.
  unfold Kernel._start_kernel.
  erewrite bind_ok by (apply assert_background_thread_run; exact Hw).
  erewrite bind_ok by (eapply setup_streams_run; eassumption).
  erewrite bind_ok by (eapply create_kernel_run; eassumption).
  unfold logger_info, emit, bind, get_self, attr, ext, ret; simpl.
  rewrite Hext.
  destruct w as [fs0 atx tr cur ths ntid nctx socks hbs ports self e].
  destruct self as [fn th ss cst k ns bn lg key ci shs css ios].
  unfold args, with_streams; run_world.
  rewrite <- !app_assoc; reflexivity.
Qed.

(** [true] when, in a list of events, every event between an acquire of
    the condition's lock and its release is an assignment of a shared
    attribute or a [notify_all]. *)
Fixpoint lock_held_only_for_assignment (held : bool) (l : list event) : bool :=
  match l with
  | [] => true
  | EvAcquire :: r => lock_held_only_for_assignment true r
  | EvRelease :: r => lock_held_only_for_assignment false r
  | (EvSetShellStream | EvSetControlStream | EvSetKernel | EvNotifyAll) :: r =>
      lock_held_only_for_assignment held r
  | _ :: r => negb held && lock_held_only_for_assignment held r
  end.

(** Claim C1 (counterexample): [_setup_streams] constructs both
    [ZMQStream] objects while it holds the lock, so the lock is held across
    object construction, not only for assignment and notification. *)
Lemma setup_streams_holds_lock_across_construction :
  ~ (forall (w : world) (l : list event),
       on_recorded_thread w ->
       w_trace (snd (Kernel._setup_streams w)) = w_trace w ++ l ->
       lock_held_only_for_assignment false l = true).
Proof.
  intros H.
  assert (Hc := H (Demo.demo_on_thread None)
             [EvAssert true; EvAcquire; EvNewStream 0; EvSetShellStream; EvNewStream 2;
              EvSetControlStream; EvNotifyAll; EvRelease]
             ltac:(vm_compute; reflexivity) ltac:(vm_compute; reflexivity)).
  vm_compute in Hc; discriminate.
Qed.

(** Claim C1 (amended): on the recorded thread, with the sockets set and
    no library call failing, step (a) [_setup_streams] acquires the lock,
    constructs and assigns the shell stream, constructs and assigns the
    control stream, notifies all waiters and releases the lock; step (b)
    [_create_kernel] constructs the kernel before taking the lock, then
    acquires it only to assign the kernel and notify all waiters, and
    releases it. *)
Theorem condition_steps_lock_scope (w : world) (sh cs io : nat)
  (Hw : on_recorded_thread w)
  (Hsh : _shell_socket (w_self w) = Some sh) (Hcs : _control_socket (w_self w) = Some cs)
  (Hio : _iopub_socket (w_self w) = Some io)
  (Hext : forall c, env_raises (w_env w) c = None) :
  w_trace (snd (Kernel._setup_streams w))
    = w_trace w ++ [EvAssert true; EvAcquire; EvNewStream sh; EvSetShellStream;
                    EvNewStream cs; EvSetControlStream; EvNotifyAll; EvRelease]
  /\ w_trace (snd (Kernel._create_kernel w))
    = w_trace w ++ [EvAssert true; EvNewKernel (expected_kernel_args (w_self w) io);
                    EvAcquire; EvSetKernel; EvNotifyAll; EvRelease].
Proof.
  split.
  - erewrite setup_streams_run by eassumption; reflexivity.
  - erewrite create_kernel_run by eassumption; reflexivity.
Qed.

Lemma condition_steps_lock_scope_witness :
  w_trace (snd (Kernel._setup_streams (Demo.demo_on_thread None)))
    = w_trace (Demo.demo_on_thread None)
      ++ [EvAssert true; EvAcquire; EvNewStream 0; EvSetShellStream;
          EvNewStream 2; EvSetControlStream; EvNotifyAll; EvRelease]
  /\ w_trace (snd (Kernel._create_kernel (Demo.demo_on_thread None)))
    = w_trace (Demo.demo_on_thread None)
      ++ [EvAssert true; EvNewKernel (expected_kernel_args (w_self (Demo.demo_on_thread None)) 1);
          EvAcquire; EvSetKernel; EvNotifyAll; EvRelease].
Proof.
  exact (condition_steps_lock_scope (Demo.demo_on_thread None) 0 2 1
           ltac:(vm_compute; reflexivity) ltac:(vm_compute; reflexivity)
           ltac:(vm_compute; reflexivity) ltac:(vm_compute; reflexivity)
           (fun c => eq_refl)).
Defined.

(** Claim C3: on the background thread, [_start_kernel] performs in
    order: (a) the two [ZMQStream]s on the shell and control sockets;
    (b) the kernel, built from the session, the two streams, the iopub
    (broadcast) socket, the logger, the user namespace and a configuration
    setting [InteractiveShell.banner2] to the banner and the history store's
    [check_same_thread] to [False]; (c) [kernel.start()]. *)
Theorem start_kernel_order (w : world) (sh cs io : nat)
  (Hw : on_recorded_thread w)
  (Hsh : _shell_socket (w_self w) = Some sh) (Hcs : _control_socket (w_self w) = Some cs)
  (Hio : _iopub_socket (w_self w) = Some io)
  (Hext : forall c, env_raises (w_env w) c = None) :
  let self := w_self w in
  let args :=
    {| ka_session := _session_key self;
       ka_shell_streams := [Some (ZMQStream sh); Some (ZMQStream cs)];
       ka_iopub_socket := io;
       ka_log := _logger self;
       ka_user_ns := _user_ns self;
       ka_config := {| cfg_InteractiveShell_banner2 := Some (_banner self);
                       cfg_HistoryAccessor_check_same_thread := Some false |} |} in
  let w' := snd (Kernel._start_kernel w) in
  fst (Kernel._start_kernel w) = Ok tt
  /\ w_trace w' = w_trace w ++
       [EvAssert true;
        EvAssert true; EvAcquire; EvNewStream sh; EvSetShellStream;
        EvNewStream cs; EvSetControlStream; EvNotifyAll; EvRelease;
        EvAssert true; EvNewKernel args; EvAcquire; EvSetKernel; EvNotifyAll; EvRelease;
        EvLogInfo; EvKernelStart]
  /\ _shell_stream (w_self w') = Some (ZMQStream sh)
  /\ _control_stream (w_self w') = Some (ZMQStream cs)
  /\ _kernel (w_self w') = Some (IPythonKernel args).
Proof.
  intros self args w'.
  unfold w'; rewrite (start_kernel_run w sh cs io Hw Hsh Hcs Hio Hext).
  repeat split; reflexivity.
Qed.

Lemma start_kernel_order_witness :
  fst (Kernel._start_kernel (Demo.demo_on_thread None)) = Ok tt
  /\ _kernel (w_self (snd (Kernel._start_kernel (Demo.demo_on_thread None))))
     = Some (IPythonKernel
               {| ka_session := s "secret";
                  ka_shell_streams := [Some (ZMQStream 0); Some (ZMQStream 2)];
                  ka_iopub_socket := 1;
                  ka_log := 0;
                  ka_user_ns := Some [(s "demo_var", 42%Z)];
                  ka_config := {| cfg_InteractiveShell_banner2 :=
                                    Some (s "Hello from background-zmq-ipython.");
                                  cfg_HistoryAccessor_check_same_thread := Some false |} |}).
Proof.
  destruct (start_kernel_order (Demo.demo_on_thread None) 0 2 1
              ltac:(vm_compute; reflexivity) ltac:(vm_compute; reflexivity)
              ltac:(vm_compute; reflexivity) ltac:(vm_compute; reflexivity)
              (fun c => eq_refl))
    as [R [_ [_ [_ K]]]].
  split; [exact R|exact K].
Defined.

(* ================================================================== *)
(** * Further properties of the wrapper *)

Open Scope py_scope.

(** The decimal value of a string of digits (for [int(...)]). *)
Definition digit_value (c : ascii) : N := (N_of_ascii c - 48)%N.

Fixpoint dec_value_acc (acc : N) (l : pystr) : N :=
  match l with
  | [] => acc
  | c :: r => dec_value_acc (acc * 10 + digit_value c)%N r
  end.

Definition dec_value (l : pystr) : N := dec_value_acc 0 l.

Definition is_digit (c : ascii) : Prop := (48 <= N_of_ascii c <= 57)%N.

Lemma dec_value_acc_app (a : N) (l1 l2 : pystr) :
  dec_value_acc a (l1 ++ l2) = dec_value_acc (dec_value_acc a l1) l2.
Proof. revert a; induction l1 as [|c r IH]; intros a; simpl; [reflexivity|apply IH]. Qed.

Lemma dec_digits_acc (fuel : nat) (n : N) (acc : pystr) :
  dec_digits fuel n acc = dec_digits fuel n [] ++ acc.
Proof.
  revert n acc; induction fuel as [|f IH]; intros n acc; simpl; [reflexivity|].
  destruct (n <? 10)%N; [reflexivity|].
  rewrite (IH _ (_ :: acc)), (IH _ [_]), <- app_assoc; reflexivity.
Qed.

Lemma digit_of_N (n : N) :
  N_of_ascii (ascii_of_N (48 + n mod 10)) = (48 + n mod 10)%N.
Proof.
  apply N_ascii_embedding.
  pose proof (N.mod_lt n 10 ltac:(discriminate)); lia.
Qed.

Lemma is_digit_of_N (n : N) : is_digit (ascii_of_N (48 + n mod 10)).
Proof.
  unfold is_digit; rewrite digit_of_N.
  pose proof (N.mod_lt n 10 ltac:(discriminate)).
  set (m := (n mod 10)%N) in *; clearbody m; lia.
Qed.

Lemma dec_digits_spec (fuel : nat) (n : N) :
  (n < 10 ^ N.of_nat fuel)%N -> (0 < fuel)%nat ->
  dec_value (dec_digits fuel n []) = n
  /\ Forall is_digit (dec_digits fuel n [])
  /\ exists c r, dec_digits fuel n [] = c :: r /\ (c = "0"%char -> n = 0%N /\ r = []).
Proof.
  revert n; induction fuel as [|f IH]; intros n Hn Hf; [lia|].
  cbn [dec_digits].
  pose proof (N.mod_lt n 10 ltac:(discriminate)) as Hm.
  pose proof (digit_of_N n) as Hd.
  destruct (n <? 10)%N eqn:E.
  - apply N.ltb_lt in E.
    rewrite N.mod_small in Hd |- * by exact E.
    split; [|split].
    + unfold dec_value; cbn [dec_value_acc]; unfold digit_value; rewrite Hd; lia.
    + constructor; [|constructor].
      pose proof (is_digit_of_N n) as Hi; rewrite N.mod_small in Hi by exact E; exact Hi.
    + exists (ascii_of_N (48 + n)), []; split; [reflexivity|].
      intros Hc; split; [|reflexivity].
      apply (f_equal N_of_ascii) in Hc; rewrite Hd in Hc.
      replace (N_of_ascii "0"%char) with 48%N in Hc by reflexivity; lia.
  - apply N.ltb_ge in E.
    destruct f as [|f'].
    { simpl in Hn; lia. }
    assert (Hq : (n / 10 < 10 ^ N.of_nat (S f'))%N).
    { apply N.Div0.div_lt_upper_bound.
      rewrite Nat2N.inj_succ, N.pow_succ_r' in Hn; lia. }
    destruct (IH (n / 10)%N Hq ltac:(lia)) as [V [D [c [r [Hcr H0]]]]].
    rewrite dec_digits_acc, Hcr.
    split; [|split].
    + unfold dec_value in *; rewrite <- Hcr, dec_value_acc_app, V; cbn [dec_value_acc].
      unfold digit_value; rewrite Hd.
      pose proof (N.div_mod n 10 ltac:(discriminate)) as Hdm.
      set (q := (n / 10)%N) in *; set (m := (n mod 10)%N) in *; clearbody q m; lia.
    + rewrite <- Hcr; apply Forall_app; split; [exact D|].
      constructor; [apply is_digit_of_N|constructor].
    + exists c, (r ++ [ascii_of_N (48 + n mod 10)]); split; [reflexivity|].
      intros Hc; destruct (H0 Hc) as [Hz _].
      exfalso; pose proof (N.div_mod n 10 ltac:(discriminate)) as Hdm.
      set (q := (n / 10)%N) in *; set (m := (n mod 10)%N) in *; clearbody q m; lia.
Qed.

Lemma fmt_int_fuel (n : N) : (n < 10 ^ N.of_nat (S (N.to_nat (N.size n))))%N.
Proof.
  rewrite Nat2N.inj_succ, N2Nat.id.
  pose proof (N.size_gt n) as H1.
  assert (H2 : (2 ^ N.size n <= 10 ^ N.size n)%N) by (apply N.pow_le_mono_l; lia).
  assert (H3 : (10 ^ N.size n < 10 ^ N.succ (N.size n))%N)
    by (apply N.pow_lt_mono_r; lia).
  set (a := (2 ^ N.size n)%N) in *; set (b := (10 ^ N.size n)%N) in *;
    set (c := (10 ^ N.succ (N.size n))%N) in *; clearbody a b c; lia.
Qed.

(** [%i]: the pid's rendering is a non-empty string of decimal digits
    without a leading zero (unless the pid is 0), whose value is the pid. *)
Theorem fmt_int_decimal (n : N) :
  dec_value (fmt_int n) = n
  /\ Forall is_digit (fmt_int n)
  /\ exists c r, fmt_int n = c :: r /\ (c = "0"%char -> n = 0%N /\ r = []).
Proof. apply dec_digits_spec; [apply fmt_int_fuel|lia]. Qed.

Lemma fmt_int_value (n : N) : dec_value (fmt_int n) = n.
Proof. apply dec_digits_spec; [apply fmt_int_fuel|lia]. Qed.

(** With pid suffixing, two processes with different pids never share a
    connection filename. *)
Theorem connection_filename_pid_injective (base : pystr) (p1 p2 : N) :
  ConnFile.connection_filename base true p1 = ConnFile.connection_filename base true p2
  <-> p1 = p2.
Proof.
  split; [|intros ->; reflexivity].
  unfold ConnFile.connection_filename; destruct (splitext base) as [name ext].
  intros H.
  apply app_inv_head in H; apply app_inv_head in H; apply app_inv_tail in H.
  rewrite <- (fmt_int_value p1), <- (fmt_int_value p2), H; reflexivity.
Qed.

Lemma rfind_from_spec (c : ascii) (p : pystr) : forall i acc,
  (rfind_from c p i acc = acc /\ ~ In c p)
  \/ (exists k, rfind_from c p i acc = (i + Z.of_nat k)%Z /\ nth_error p k = Some c
                /\ ~ In c (skipn (S k) p)).
Proof.
  induction p as [|x r IH]; intros i acc; simpl.
  - left; split; [reflexivity|tauto].
  - destruct (IH (i + 1)%Z (if ascii_dec x c then i else acc)) as [[E Hn]|[k [E [Hk Hs]]]].
    + rewrite E; destruct (ascii_dec x c) as [->|Ne].
      * right; exists 0; split; [lia|split; [reflexivity|exact Hn]].
      * left; split; [reflexivity|intros [H|H]; [congruence|contradiction]].
    + right; exists (S k); rewrite E; split; [lia|split; [exact Hk|exact Hs]].
Qed.

Lemma splitext_scan_cases (p : pystr) (d fi : Z) (fuel : nat) :
  splitext_scan p d fi fuel = (p, [])
  \/ splitext_scan p d fi fuel = (firstn (Z.to_nat d) p, skipn (Z.to_nat d) p).
Proof.
  revert fi; induction fuel as [|f IH]; intros fi; simpl; [left; reflexivity|].
  destruct (fi <? d)%Z; [|left; reflexivity].
  destruct (negb _); [right; reflexivity|apply IH].
Qed.

Lemma skipn_nth_error {A} (l : list A) (k : nat) (x : A) :
  nth_error l k = Some x -> skipn k l = x :: skipn (S k) l.
Proof.
  revert k; induction l as [|y r IH]; intros [|k] H; simpl in *; try discriminate.
  - injection H as ->; reflexivity.
  - apply IH, H.
Qed.

Lemma in_skipn_le {A} (l : list A) (x : A) : forall n m,
  (n <= m)%nat -> In x (skipn m l) -> In x (skipn n l).
Proof.
  induction l as [|y r IH]; intros n m Hnm H.
  - destruct m, n; simpl in *; contradiction.
  - destruct n as [|n'].
    + destruct m as [|m']; [exact H|right; apply (IH 0 m'); [lia|exact H]].
    + destruct m as [|m']; [lia|simpl in *; apply (IH n' m'); [lia|exact H]].
Qed.

Lemma splitext_shape (p : pystr) :
  fst (splitext p) ++ snd (splitext p) = p
  /\ (snd (splitext p) = []
      \/ exists r, snd (splitext p) = "."%char :: r /\ ~ In "."%char r /\ ~ In "/"%char r).
Proof.
  split; [apply splitext_app|].
  unfold splitext, rfind.
  destruct (rfind_from_spec "."%char p 0 (-1)) as [[Ed Nd]|[kd [Ed [Hkd Sd]]]];
    rewrite Ed.
  - destruct (rfind_from_spec "/"%char p 0 (-1)) as [[Es _]|[ks [Es _]]]; rewrite Es;
      [left; reflexivity|].
    destruct (_ <? _)%Z eqn:C; [lia|left; reflexivity].
  - destruct (_ <? _)%Z eqn:C; [|left; reflexivity].
    destruct (splitext_scan_cases p (0 + Z.of_nat kd) (rfind_from "/"%char p 0 (-1) + 1)
                (List.length p)) as [E|E]; rewrite E; [left; reflexivity|right].
    simpl snd; rewrite ?Z.add_0_l, Nat2Z.id, (skipn_nth_error p kd _ Hkd).
    exists (skipn (S kd) p); split; [reflexivity|split; [exact Sd|]].
    intros Hin.
    destruct (rfind_from_spec "/"%char p 0 (-1)) as [[Es Ns]|[ks [Es [_ Ss]]]];
      rewrite Es in C.
    + apply Ns; apply (in_skipn_le p _ 0 (S kd)); [lia|exact Hin].
    + apply Ss; apply (in_skipn_le p _ (S ks) (S kd)); [lia|exact Hin].
Qed.

(** With pid suffixing, ["-<pid>"] is inserted right before the
    extension, which is empty or a ['.'] followed by neither ['.'] nor
    ['/']: the pid lands in the last path component and the extension is
    kept. *)
Theorem connection_filename_pid_before_extension (base : pystr) (pid : N) :
  exists name ext,
    base = name ++ ext
    /\ ConnFile.connection_filename base true pid = name ++ s "-" ++ fmt_int pid ++ ext
    /\ (ext = [] \/ exists r, ext = "."%char :: r /\ ~ In "."%char r /\ ~ In "/"%char r).
Proof.
  destruct (splitext_shape base) as [A B].
  exists (fst (splitext base)), (snd (splitext base)).
  split; [symmetry; exact A|split; [|exact B]].
  unfold ConnFile.connection_filename; destruct (splitext base); reflexivity.
Qed.

Lemma pystr_eqb_eq (a b : pystr) : pystr_eqb a b = true <-> a = b.
Proof. unfold pystr_eqb; destruct (list_eq_dec ascii_dec a b); split; congruence. Qed.

Lemma lookup_remove_other (q p : pystr) (l : list (pystr * file)) :
  q <> p -> lookup_file q (remove_file p l) = lookup_file q l.
Proof.
  intros Hne; induction l as [|[r f] t IH]; simpl; [reflexivity|].
  destruct (pystr_eqb p r) eqn:E; simpl.
  - apply pystr_eqb_eq in E; subst r.
    destruct (pystr_eqb q p) eqn:E2; [apply pystr_eqb_eq in E2; contradiction|exact IH].
  - destruct (pystr_eqb q r); [reflexivity|exact IH].
Qed.

Lemma run_hook_files (p q : pystr) (x : fs) :
  let x' := snd (Cleanup.run_hook (Cleanup.HookCleanupConnectionFile p) x) in
  fs_unlink_error x' = fs_unlink_error x
  /\ (q <> p -> lookup_file q (fs_files x') = lookup_file q (fs_files x))
  /\ (has_nul p = false -> fs_unlink_error x p = None -> lookup_file p (fs_files x') = None)
  /\ (lookup_file q (fs_files x) = None -> lookup_file q (fs_files x') = None).
Proof.
  simpl.
  destruct (has_nul p) eqn:Hnul.
  { rewrite (cleanup_nul p x Hnul); simpl.
    repeat split; auto; discriminate. }
  destruct (cleanup_cases p x Hnul) as [[E H]|[E H]]; rewrite E; simpl.
  - repeat split; auto.
    intros _ Hn; destruct H as [H|H]; [contradiction|].
    unfold exists_file in H; destruct (lookup_file p (fs_files x)); congruence.
  - repeat split.
    + intros Hne; apply lookup_remove_other, Hne.
    + intros _ _; apply lookup_remove_file.
    + intros Hq; destruct (list_eq_dec ascii_dec q p) as [->|Hne];
        [apply lookup_remove_file|rewrite lookup_remove_other; assumption].
Qed.

Lemma run_atexit_keeps_absent (hooks : list Cleanup.hook) : forall (x : fs) (q : pystr),
  lookup_file q (fs_files x) = None ->
  lookup_file q (fs_files (Cleanup.run_atexit hooks x)) = None
  /\ fs_unlink_error (Cleanup.run_atexit hooks x) = fs_unlink_error x.
Proof.
  induction hooks as [|[p] r IH]; intros x q Hq; cbn [Cleanup.run_atexit];
    [split; [exact Hq|reflexivity]|].
  destruct (run_hook_files p q x) as [U [_ [_ A]]].
  destruct (IH _ q (A Hq)) as [A' U']; split; [exact A'|rewrite U', U; reflexivity].
Qed.

(** At interpreter exit, the registered cleanup hooks delete each of
    their connection files whose name has no NUL byte and whose unlink the
    OS allows, leave every file no hook names as it was, and never change
    what the OS allows. *)
Theorem atexit_cleanup_removes_only_connection_files
    (hooks : list Cleanup.hook) (x : fs) (p : pystr) :
  fs_unlink_error (Cleanup.run_atexit hooks x) = fs_unlink_error x
  /\ (has_nul p = false -> In (Cleanup.HookCleanupConnectionFile p) hooks ->
      fs_unlink_error x p = None -> exists_file p (Cleanup.run_atexit hooks x) = false)
  /\ (~ In (Cleanup.HookCleanupConnectionFile p) hooks ->
      lookup_file p (fs_files (Cleanup.run_atexit hooks x)) = lookup_file p (fs_files x)).
Proof.
  revert x; induction hooks as [|[q] r IH]; intros x; cbn [Cleanup.run_atexit In].
  - split; [reflexivity|split; [intros _ []|intros _; reflexivity]].
  - destruct (run_hook_files q p x) as [U [O [R A]]].
    destruct (IH (snd (Cleanup.run_hook (Cleanup.HookCleanupConnectionFile q) x)))
      as [U' [I' N']].
    split; [rewrite U', U; reflexivity|split].
    + intros Hnul [H|H] Hu.
      * injection H as ->.
        unfold exists_file.
        rewrite (proj1 (run_atexit_keeps_absent r _ p (R Hnul Hu))); reflexivity.
      * apply I'; [exact Hnul|exact H|rewrite U; exact Hu].
    + intros Hn.
      rewrite N' by (intros H; apply Hn; right; exact H).
      apply O; intros ->; apply Hn; left; reflexivity.
Qed.

Lemma lookup_put_file_same (p : pystr) (f : file) (l : list (pystr * file)) :
  lookup_file p (put_file p f l) = Some f.
Proof. unfold put_file; simpl; rewrite (proj2 (pystr_eqb_eq p p) eq_refl); reflexivity. Qed.

Lemma lookup_put_file_other (q p : pystr) (f : file) (l : list (pystr * file)) :
  q <> p -> lookup_file q (put_file p f l) = lookup_file q l.
Proof.
  intros Hne; unfold put_file; simpl.
  destruct (pystr_eqb q p) eqn:E; [apply pystr_eqb_eq in E; contradiction|].
  apply lookup_remove_other, Hne.
Qed.

(** [_write_connection_file]: when writing and [chmod] succeed, the
    connection file holds the session key and the connection info with its
    mode masked to the owner's bits ([& 0o0700]); no other file is touched
    and what the OS allows to unlink is unchanged. *)
Theorem write_connection_file_owner_only (w : world) (info : conn_info)
  (Hinfo : _connection_info (w_self w) = Some info)
  (Hwr : env_raises (w_env w) XWriteConnectionFile = None)
  (Hch : env_raises (w_env w) XChmod = None) :
  let fn := _connection_filename (w_self w) in
  let w' := snd (WriteConn._write_connection_file w) in
  fst (WriteConn._write_connection_file w) = Ok tt
  /\ lookup_file fn (fs_files (w_fs w'))
       = Some {| f_mode := Z.land (env_new_file_mode (w_env w)) 448;
                 f_key := _session_key (w_self w); f_info := info |}
  /\ (forall q, q <> fn -> lookup_file q (fs_files (w_fs w')) = lookup_file q (fs_files (w_fs w)))
  /\ fs_unlink_error (w_fs w') = fs_unlink_error (w_fs w).
Proof.
  destruct w as [fs0 atx tr cur ths ntid nctx socks hbs ports self e].
  destruct self as [fn th ss cst k ns bn lg key ci shs css ios].
  simpl in Hinfo, Hwr, Hch; subst ci.
  cbv beta iota zeta delta [WriteConn._write_connection_file bind get_self
    WriteConn.atexit_register emit attr ret WriteConn.ipykernel_write_connection_file
    WriteConn.os_stat_st_mode WriteConn.os_chmod ext logger_info upd_trace upd_atexit
    upd_fs set_files
    w_fs w_atexit w_trace w_cur w_threads w_next_tid w_next_ctx w_sockets w_heartbeats
    w_ports_used w_self w_env
    _connection_filename _thread _shell_stream _control_stream _kernel _user_ns
    _banner _logger _session_key _connection_info _shell_socket _control_socket
    _iopub_socket fs_files fs_unlink_error f_mode f_key f_info].
  rewrite Hwr. cbv beta iota.
  rewrite lookup_put_file_same. cbv beta iota zeta delta [f_mode f_key f_info].
  rewrite Hch. cbv beta iota.
  rewrite lookup_put_file_same. cbv beta iota zeta delta [fst snd fs_files fs_unlink_error w_fs].
  split; [reflexivity|split; [apply lookup_put_file_same|split; [|reflexivity]]].
  intros q Hq; rewrite !lookup_put_file_other by exact Hq; reflexivity.
Qed.

Lemma write_connection_file_owner_only_witness :
  let w := snd (Sockets._create_sockets (Demo.demo_world None)) in
  let fn := _connection_filename (w_self w) in
  let w' := snd (WriteConn._write_connection_file w) in
  fst (WriteConn._write_connection_file w) = Ok tt
  /\ lookup_file fn (fs_files (w_fs w'))
       = Some {| f_mode := Z.land (env_new_file_mode (w_env w)) 448;
                 f_key := _session_key (w_self w);
                 f_info := {| ci_ip := s "127.0.0.1"; ci_shell_port := 50000;
                              ci_iopub_port := 50001; ci_control_port := 50002;
                              ci_hb_port := 50003 |} |}
  /\ (forall q, q <> fn -> lookup_file q (fs_files (w_fs w')) = lookup_file q (fs_files (w_fs w)))
  /\ fs_unlink_error (w_fs w') = fs_unlink_error (w_fs w).
Proof.
  exact (write_connection_file_owner_only (snd (Sockets._create_sockets (Demo.demo_world None)))
           _ ltac:(vm_compute; reflexivity) ltac:(vm_compute; reflexivity)
           ltac:(vm_compute; reflexivity)).
Defined.

Definition bound_port (socks : list socket_rec) (n : nat) : option Z :=
  match nth_error socks n with
  | Some r => match s_bound r with Some (_, p) => Some p | None => None end
  | None => None
  end.

Lemma nth_error_app_length {A} (l r : list A) (k : nat) :
  nth_error (l ++ r) (List.length l + k) = nth_error r k.
Proof. rewrite nth_error_app2 by lia; f_equal; lia. Qed.

(** [_create_sockets], when none of its library calls raises: the
    recorded connection info names the environment's IP and exactly the
    ports the shell, iopub and control sockets were bound to and the port
    of the started heartbeat; the heartbeat's daemon thread gets the next
    thread id and is started, the other threads are untouched, and so are
    the file system, the atexit hooks and the session. *)
Theorem create_sockets_connection_info (w : world) (Hok : sockets_ok (w_env w)) :
  let w' := snd (Sockets._create_sockets w) in
  exists info sh io cs hb r,
    _connection_info (w_self w') = Some info
    /\ _shell_socket (w_self w') = Some sh /\ _iopub_socket (w_self w') = Some io
    /\ _control_socket (w_self w') = Some cs
    /\ ci_ip info = env_ip (w_env w)
    /\ bound_port (w_sockets w') sh = Some (ci_shell_port info)
    /\ bound_port (w_sockets w') io = Some (ci_iopub_port info)
    /\ bound_port (w_sockets w') cs = Some (ci_control_port info)
    /\ nth_error (w_heartbeats w') hb = Some r /\ hb_port r = ci_hb_port info
    /\ hb_started r = true
    /\ hb_thread r = w_next_tid w
    /\ Kernel.lookup_thread (hb_thread r) (w_threads w') =
       Some {| th_target := Target_heartbeat hb; th_name := s "Heartbeat";
               th_daemon := true; th_started := true |}
    /\ (forall u, u <> w_next_tid w ->
         Kernel.lookup_thread u (w_threads w') = Kernel.lookup_thread u (w_threads w))
    /\ w_fs w' = w_fs w /\ w_atexit w' = w_atexit w
    /\ _connection_filename (w_self w') = _connection_filename (w_self w)
    /\ _session_key (w_self w') = _session_key (w_self w)
    /\ _thread (w_self w') = _thread (w_self w)
    /\ _kernel (w_self w') = _kernel (w_self w).
Proof.
  destruct w as [fs0 atx tr cur ths ntid nctx socks hbs ports self e].
  sockets_run Hok.
  rewrite <- !app_assoc, !length_app.
  eexists _, _, _, _, (List.length hbs), _.
  split; [reflexivity|].
  repeat split; try reflexivity.
  all: try (rewrite nth_error_last; reflexivity).
  all: try reflexivity.
  all: try (intros u Hu; rewrite lookup_mark_started; cbn [hb_thread];
            destruct (Nat.eqb_spec u ntid); [contradiction|];
            cbn [Kernel.lookup_thread]; destruct (Nat.eqb_spec ntid u); [congruence|reflexivity]).
  all: try (cbn [hb_thread]; rewrite lookup_mark_started, Nat.eqb_refl;
            cbn [Kernel.lookup_thread]; rewrite Nat.eqb_refl; reflexivity).
  all: unfold bound_port; simpl Datatypes.length;
    first [ rewrite nth_error_app_length
          | rewrite <- (Nat.add_0_r (Datatypes.length socks)) at 1;
            rewrite nth_error_app_length ]; reflexivity.
Qed.

(** The demo world satisfies the hypothesis of [create_sockets_connection_info]. *)
Lemma create_sockets_connection_info_witness :
  sockets_ok (w_env (Demo.demo_world None))
  /\ _connection_info (w_self (snd (Sockets._create_sockets (Demo.demo_world None)))) <> None.
Proof.
  assert (H : sockets_ok (w_env (Demo.demo_world None))) by (intros c _; reflexivity).
  split; [exact H|].
  destruct (create_sockets_connection_info (Demo.demo_world None) H)
    as [info [_ [_ [_ [_ [_ [I _]]]]]]].
  rewrite I; discriminate.
Defined.

(** Walking a list of events with the state of the condition's
    (non-reentrant) lock: [None] when it is acquired while held or released
    while free, else the final state. *)
Fixpoint lock_walk (held : bool) (l : list event) : option bool :=
  match l with
  | [] => Some held
  | EvAcquire :: r => if held then None else lock_walk true r
  | EvRelease :: r => if held then lock_walk false r else None
  | _ :: r => lock_walk held r
  end.

Lemma lock_walk_app (h : bool) (l1 l2 : list event) :
  lock_walk h (l1 ++ l2) = match lock_walk h l1 with Some h' => lock_walk h' l2 | None => None end.
Proof.
  revert h; induction l1 as [|a r IH]; intros h; [reflexivity|].
  destruct a; simpl; try apply IH; destruct h; try reflexivity; apply IH.
Qed.

(** Computations that emit no lock event. *)
Definition lock_silent {A} (m : M A) : Prop :=
  forall w, exists l, w_trace (snd (m w)) = w_trace w ++ l /\ forall h, lock_walk h l = Some h.

(** Computations that leave the lock free whenever they started with it
    free, and never acquire it twice or release it unheld. *)
Definition lock_neutral {A} (m : M A) : Prop :=
  forall w, exists l, w_trace (snd (m w)) = w_trace w ++ l /\ lock_walk false l = Some false.

Ltac silent_nil := intros ?w; exists []; split; [rewrite app_nil_r; reflexivity|reflexivity].

Lemma lock_silent_ret {A} (a : A) : lock_silent (ret a).
Proof. silent_nil. Qed.
Lemma lock_silent_raise {A} (e : exc) : lock_silent (@raise A e).
Proof. silent_nil. Qed.
Lemma lock_silent_get_self : lock_silent get_self.
Proof. silent_nil. Qed.
Lemma lock_silent_get_env : lock_silent get_env.
Proof. silent_nil. Qed.
Lemma lock_silent_get : lock_silent get.
Proof. silent_nil. Qed.
Lemma lock_silent_put_self (x : wrapper) : lock_silent (put_self x).
Proof. silent_nil. Qed.
Lemma lock_silent_ext (c : ext_call) : lock_silent (ext c).
Proof. intros w; unfold ext; destruct (env_raises (w_env w) c); exists [];
  (split; [rewrite app_nil_r; reflexivity|reflexivity]). Qed.
Lemma lock_silent_attr {A} (o : option A) : lock_silent (attr o).
Proof. destruct o; [apply lock_silent_ret|apply lock_silent_raise]. Qed.

Lemma lock_silent_emit (e : event) :
  e <> EvAcquire -> e <> EvRelease -> lock_silent (emit e).
Proof.
  intros H1 H2 w; exists [e]; split; [reflexivity|].
  intros h; destruct e; try reflexivity; congruence.
Qed.

Lemma lock_silent_bind {A B} (m : M A) (k : A -> M B) :
  lock_silent m -> (forall a, lock_silent (k a)) -> lock_silent (bind m k).
Proof.
  intros Hm Hk w; unfold bind.
  destruct (Hm w) as [l1 [T1 W1]].
  destruct (m w) as [[a|e] w'] eqn:E; simpl in *.
  - destruct (Hk a w') as [l2 [T2 W2]].
    exists (l1 ++ l2); split; [rewrite T2, T1, app_assoc; reflexivity|].
    intros h; rewrite lock_walk_app, W1, W2; reflexivity.
  - exists l1; split; assumption.
Qed.

Lemma lock_silent_neutral {A} (m : M A) : lock_silent m -> lock_neutral m.
Proof. intros H w; destruct (H w) as [l [T W]]; exists l; split; [exact T|apply W]. Qed.

Lemma lock_neutral_bind {A B} (m : M A) (k : A -> M B) :
  lock_neutral m -> (forall a, lock_neutral (k a)) -> lock_neutral (bind m k).
Proof.
  intros Hm Hk w; unfold bind.
  destruct (Hm w) as [l1 [T1 W1]].
  destruct (m w) as [[a|e] w'] eqn:E; simpl in *.
  - destruct (Hk a w') as [l2 [T2 W2]].
    exists (l1 ++ l2); split; [rewrite T2, T1, app_assoc; reflexivity|].
    rewrite lock_walk_app, W1, W2; reflexivity.
  - exists l1; split; assumption.
Qed.

Lemma lock_neutral_try_except {A} (m : M A) (handled : exc -> bool) (h : exc -> M A) :
  lock_neutral m -> (forall e, lock_neutral (h e)) -> lock_neutral (try_except m handled h).
Proof.
  intros Hm Hh w; unfold try_except.
  destruct (Hm w) as [l1 [T1 W1]].
  destruct (m w) as [[a|e] w'] eqn:E; simpl in *; [exists l1; split; assumption|].
  destruct (handled e); [|exists l1; split; assumption].
  destruct (Hh e w') as [l2 [T2 W2]].
  exists (l1 ++ l2); split; [rewrite T2, T1, app_assoc; reflexivity|].
  rewrite lock_walk_app, W1, W2; reflexivity.
Qed.

Lemma lock_neutral_with_condition {A} (body : M A) :
  lock_silent body -> lock_neutral (with_condition body).
Proof.
  intros Hb w; unfold with_condition, bind, emit; simpl.
  set (w1 := upd_trace (w_trace w ++ [EvAcquire]) w).
  destruct (Hb w1) as [l [T W]].
  destruct (body w1) as [r w'] eqn:E; simpl in *.
  exists ([EvAcquire] ++ l ++ [EvRelease]); split.
  - rewrite T; unfold w1; simpl; rewrite <- !app_assoc; reflexivity.
  - simpl; rewrite lock_walk_app, W; reflexivity.
Qed.

Lemma lock_silent_py_assert (b : bool) : lock_silent (py_assert b).
Proof.
  unfold py_assert; apply lock_silent_bind; [apply lock_silent_emit; discriminate|intros _].
  destruct b; [apply lock_silent_ret|apply lock_silent_raise].
Qed.

Lemma lock_silent_assert_background_thread : lock_silent Kernel.assert_background_thread.
Proof.
  unfold Kernel.assert_background_thread; apply lock_silent_bind; [|intros b; apply lock_silent_py_assert].
  silent_nil.
Qed.

Create HintDb lock_db.
#[local] Hint Resolve lock_silent_ret lock_silent_raise lock_silent_get_self
  lock_silent_get_env lock_silent_get lock_silent_put_self lock_silent_ext lock_silent_attr
  lock_silent_py_assert lock_silent_assert_background_thread : lock_db.

Ltac silent_steps :=
  repeat first
    [ progress auto with lock_db
    | apply lock_silent_bind; [| intros ?]
    | apply lock_silent_emit; discriminate ].

Ltac neutral_steps :=
  repeat first
    [ solve [apply lock_silent_neutral; silent_steps]
    | apply lock_neutral_with_condition; silent_steps
    | apply lock_neutral_try_except; [| intros ?]
    | apply lock_neutral_bind; [| intros ?] ].

Lemma lock_neutral_start_kernel : lock_neutral Kernel._start_kernel.
Proof.
  unfold Kernel._start_kernel, Kernel._setup_streams, Kernel._create_kernel,
    Kernel.zmq_stream, Kernel.ipython_kernel, Kernel.set_shell_stream,
    Kernel.set_control_stream, Kernel.set_kernel, notify_all, logger_info.
  neutral_steps.
Qed.

Lemma lock_neutral_run_handles (hs : list (M unit)) :
  Forall lock_neutral hs -> lock_neutral (Kernel.run_handles hs).
Proof.
  induction 1 as [|h r Hh Hr IH]; simpl;
    [apply lock_silent_neutral, lock_silent_ret|].
  unfold Kernel.run_handle; neutral_steps; assumption.
Qed.

Lemma lock_neutral_run_iterations (fuel : nat) : forall (ready : list (M unit)) (i : nat),
  Forall lock_neutral ready -> lock_neutral (Kernel.run_iterations ready i fuel).
Proof.
  induction fuel as [|f IH]; intros ready i Hr; simpl;
    [apply lock_silent_neutral, lock_silent_ret|].
  apply lock_neutral_bind; [apply lock_silent_neutral, lock_silent_get_env|intros e].
  destruct (Kernel.option_eq_nat (env_ki_at e) i); [neutral_steps|].
  apply lock_neutral_bind; [apply lock_silent_neutral, lock_silent_emit; discriminate|intros _].
  apply lock_neutral_bind; [apply lock_neutral_run_handles, Hr|intros _].
  destruct (Kernel.option_eq_nat (env_stop_at e) i); [neutral_steps|apply IH; constructor].
Qed.

(** Whatever the library calls do, including raising, the background
    thread's [_thread_loop] (and through it [_start_kernel],
    [_setup_streams] and [_create_kernel]) never acquires the condition's
    non-reentrant lock while it holds it, never releases it unheld, and
    has released it whenever it returns or raises. *)
Theorem thread_loop_lock_balanced (w : world) (fuel : nat) :
  exists l, w_trace (snd (Kernel._thread_loop fuel w)) = w_trace w ++ l
            /\ lock_walk false l = Some false.
Proof.
  revert w.
  change (lock_neutral (Kernel._thread_loop fuel)).
  unfold Kernel._thread_loop, Kernel.run_forever.
  apply lock_neutral_bind; [apply lock_silent_neutral; silent_steps|intros _].
  apply lock_neutral_bind; [apply lock_silent_neutral; silent_steps|intros _].
  apply lock_neutral_bind; [apply lock_silent_neutral; silent_steps|intros _].
  apply lock_neutral_try_except; [|intros _; apply lock_silent_neutral, lock_silent_ret].
  apply lock_neutral_bind; [apply lock_silent_neutral; silent_steps|intros _].
  apply lock_neutral_run_iterations.
  constructor; [apply lock_neutral_start_kernel|constructor].
Qed.

Lemma assert_background_thread_off (w : world) :
  _thread (w_self w) <> Some (w_cur w) ->
  Kernel.assert_background_thread w
  = (Exc AssertionError, upd_trace (w_trace w ++ [EvAssert false]) w).
Proof.
  intros Hoff; unfold Kernel.assert_background_thread, Kernel.current_thread_is_self_thread,
    py_assert, bind, emit, raise.
  destruct (_thread (w_self w)) as [t|] eqn:T; [|reflexivity].
  destruct (Nat.eqb t (w_cur w)) eqn:E; [apply Nat.eqb_eq in E; subst; contradiction|].
  reflexivity.
Qed.

Lemma bind_exc {A B} (m : M A) (k : A -> M B) (w w' : world) (e : exc) :
  m w = (Exc e, w') -> bind m k w = (Exc e, w').
Proof. intros E; unfold bind; rewrite E; reflexivity. Qed.

Lemma thread_loop_off_thread (w : world) (fuel : nat) :
  _thread (w_self w) <> Some (w_cur w) ->
  Kernel._thread_loop fuel w = (Exc AssertionError, upd_trace (w_trace w ++ [EvAssert false]) w).
Proof. intros Hoff; apply bind_exc, assert_background_thread_off, Hoff. Qed.

(** Called on any thread other than the one recorded in [self._thread]
    (also before [start()], when it is [None]), [_setup_streams],
    [_create_kernel], [_start_kernel] and [_thread_loop] raise
    [AssertionError] at their first statement: no stream, kernel, lock or
    event loop is touched. *)
Theorem background_steps_refuse_other_threads (w : world)
  (Hoff : _thread (w_self w) <> Some (w_cur w)) :
  let w' := upd_trace (w_trace w ++ [EvAssert false]) w in
  Kernel._setup_streams w = (Exc AssertionError, w')
  /\ Kernel._create_kernel w = (Exc AssertionError, w')
  /\ Kernel._start_kernel w = (Exc AssertionError, w')
  /\ forall fuel, Kernel._thread_loop fuel w = (Exc AssertionError, w').
Proof.
  pose proof (assert_background_thread_off w Hoff) as A.
  split; [|split; [|split]]; try (apply bind_exc, A).
  intros fuel; apply thread_loop_off_thread, Hoff.
Qed.

Lemma background_steps_refuse_other_threads_witness :
  let w := Demo.demo_world None in
  let w' := upd_trace (w_trace w ++ [EvAssert false]) w in
  Kernel._setup_streams w = (Exc AssertionError, w')
  /\ Kernel._create_kernel w = (Exc AssertionError, w')
  /\ Kernel._start_kernel w = (Exc AssertionError, w')
  /\ forall fuel, Kernel._thread_loop fuel w = (Exc AssertionError, w').
Proof.
  exact (background_steps_refuse_other_threads (Demo.demo_world None)
           ltac:(vm_compute; discriminate)).
Defined.

(** The environment [base] in which the library calls [bad] raise [x]. *)
Definition is_kernel_call (c : ext_call) : bool :=
  match c with XIPythonKernel => true | _ => false end.

Definition is_stream_call (sock : nat) (c : ext_call) : bool :=
  match c with XZMQStream n => Nat.eqb n sock | _ => false end.

(** If [IPythonKernel(...)] raises, [_create_kernel] propagates the
    exception before taking the lock: [self._kernel] and everything but the
    trace are left as they were, and waiters are not notified. *)
Theorem create_kernel_failure_keeps_kernel_unset (w : world) (io : nat) (e : exc)
  (Hw : on_recorded_thread w) (Hio : _iopub_socket (w_self w) = Some io)
  (Hk : env_raises (w_env w) XIPythonKernel = Some e) :
  Kernel._create_kernel w
  = (Exc e, upd_trace (w_trace w ++ [EvAssert true;
                                     EvNewKernel (expected_kernel_args (w_self w) io)]) w).
Proof.
  destruct w as [fs0 atx tr cur ths ntid nctx socks hbs ports self en].
  destruct self as [fn th ss cst k ns bn lg key ci shs css ios].
  unfold on_recorded_thread in Hw; simpl in *; subst.
  unfold Kernel._create_kernel, Kernel.assert_background_thread,
    Kernel.current_thread_is_self_thread, py_assert, with_condition,
    Kernel.ipython_kernel, Kernel.set_kernel, notify_all, ext, attr, bind, emit,
    get_self, put_self, ret; simpl.
  rewrite Nat.eqb_refl; simpl; rewrite Hk; simpl.
  unfold expected_kernel_args, upd_trace; simpl.
  rewrite <- !app_assoc; reflexivity.
Qed.

Lemma create_kernel_failure_keeps_kernel_unset_witness :
  let w := upd_env (env_raising (Demo.demo_env None) is_kernel_call OtherException)
             (Demo.demo_on_thread None) in
  Kernel._create_kernel w
  = (Exc OtherException,
     upd_trace (w_trace w ++ [EvAssert true; EvNewKernel (expected_kernel_args (w_self w) 1)]) w).
Proof.
  exact (create_kernel_failure_keeps_kernel_unset
           (upd_env (env_raising (Demo.demo_env None) is_kernel_call OtherException)
              (Demo.demo_on_thread None)) 1 OtherException
           ltac:(vm_compute; reflexivity) ltac:(vm_compute; reflexivity)
           ltac:(vm_compute; reflexivity)).
Defined.

(** If [ZMQStream] on the control socket raises, [_setup_streams] has
    already assigned the shell stream, leaves the control stream as it
    was, does not notify the waiters, and releases the lock (the [with]
    block) before the exception propagates. *)
Theorem setup_streams_control_failure (w : world) (sh cs : nat) (e : exc)
  (Hw : on_recorded_thread w)
  (Hsh : _shell_socket (w_self w) = Some sh) (Hcs : _control_socket (w_self w) = Some cs)
  (Hs : env_raises (w_env w) (XZMQStream sh) = None)
  (Hc : env_raises (w_env w) (XZMQStream cs) = Some e) :
  Kernel._setup_streams w
  = (Exc e,
     upd_self (Kernel.set_shell_stream_attr (Some (ZMQStream sh)) (w_self w))
       (upd_trace (w_trace w ++ [EvAssert true; EvAcquire; EvNewStream sh; EvSetShellStream;
                                 EvNewStream cs; EvRelease]) w)).
Proof.
  destruct w as [fs0 atx tr cur ths ntid nctx socks hbs ports self en].
  destruct self as [fn th ss cst k ns bn lg key ci shs css ios].
  unfold on_recorded_thread in Hw; simpl in *; subst.
  unfold Kernel._setup_streams, Kernel.assert_background_thread,
    Kernel.current_thread_is_self_thread, py_assert, with_condition,
    Kernel.zmq_stream, Kernel.set_shell_stream, Kernel.set_control_stream,
    notify_all, ext, attr, bind, emit, get_self, put_self, ret; simpl.
  rewrite Nat.eqb_refl; simpl; rewrite Hs; simpl.
  cbv beta iota zeta delta [upd_trace upd_self Kernel.set_control_stream_attr
    Kernel.set_shell_stream_attr w_fs w_atexit w_trace w_cur w_threads
    w_next_tid w_next_ctx w_sockets w_heartbeats w_ports_used w_self w_env
    _connection_filename _thread _shell_stream _control_stream _kernel _user_ns
    _banner _logger _session_key _connection_info _shell_socket _control_socket
    _iopub_socket].
  rewrite Hc; cbv beta iota.
  rewrite <- !app_assoc; reflexivity.
Qed.

Lemma setup_streams_control_failure_witness :
  let w := upd_env (env_raising (Demo.demo_env None) (is_stream_call 2) OtherException)
             (Demo.demo_on_thread None) in
  Kernel._setup_streams w
  = (Exc OtherException,
     upd_self (Kernel.set_shell_stream_attr (Some (ZMQStream 0)) (w_self w))
       (upd_trace (w_trace w ++ [EvAssert true; EvAcquire; EvNewStream 0; EvSetShellStream;
                                 EvNewStream 2; EvRelease]) w)).
Proof.
  exact (setup_streams_control_failure
           (upd_env (env_raising (Demo.demo_env None) (is_stream_call 2) OtherException)
              (Demo.demo_on_thread None)) 0 2 OtherException
           ltac:(vm_compute; reflexivity) ltac:(vm_compute; reflexivity)
           ltac:(vm_compute; reflexivity) ltac:(vm_compute; reflexivity)
           ltac:(vm_compute; reflexivity)).
Defined.

Lemma endless_loop_from_uninterrupted (fuel : nat) : forall (n : nat) (w : world),
  (forall k, n <= k < n + fuel -> env_sleep_ki (w_env w) k = false) ->
  Kernel.endless_loop_from n fuel w
  = (Ok Kernel.StillRunning, upd_trace (w_trace w ++ map EvSleep (seq n fuel)) w).
Proof.
  induction fuel as [|f IH]; intros n w Hk.
  - destruct w; simpl; rewrite app_nil_r; reflexivity.
  - simpl seq; simpl map.
    simpl Kernel.endless_loop_from.
    unfold Kernel.time_sleep, bind, try_except, emit, get_env, raise, ret; simpl.
    rewrite (Hk n) by lia; simpl.
    rewrite IH by (simpl; intros k Hk'; apply Hk; lia).
    simpl.
    rewrite <- app_assoc; reflexivity.
Qed.

(** As long as no [time.sleep(1)] is interrupted, [_endless_dummy_loop]
    never returns: after [n] rounds it has slept [n] times, printed
    nothing and is still running. *)
Theorem endless_dummy_loop_runs_until_interrupted (w : world) (fuel : nat)
  (Hno : forall k, k < fuel -> env_sleep_ki (w_env w) k = false) :
  Kernel._endless_dummy_loop fuel w
  = (Ok Kernel.StillRunning, upd_trace (w_trace w ++ map EvSleep (seq 0 fuel)) w).
Proof.
  apply endless_loop_from_uninterrupted; intros k Hk; apply Hno; lia.
Qed.

Lemma endless_dummy_loop_runs_until_interrupted_witness :
  Kernel._endless_dummy_loop 2 (Demo.demo_world None)
  = (Ok Kernel.StillRunning,
     upd_trace (w_trace (Demo.demo_world None) ++ map EvSleep (seq 0 2)) (Demo.demo_world None)).
Proof.
  apply (endless_dummy_loop_runs_until_interrupted (Demo.demo_world None) 2).
  intros k Hk; destruct k as [|[|]]; [reflexivity|reflexivity|lia].
Defined.

(** No library call raises [KeyboardInterrupt]. *)
Definition env_no_ki (e : env) : Prop := forall c, env_raises e c <> Some KeyboardInterrupt.

(** Computations that do not raise [KeyboardInterrupt] when no library
    call does, and keep the environment. *)
Definition no_ki {A} (m : M A) : Prop :=
  forall w, env_no_ki (w_env w) ->
    fst (m w) <> Exc KeyboardInterrupt /\ w_env (snd (m w)) = w_env w.

Lemma no_ki_ret {A} (a : A) : no_ki (ret a).
Proof. intros w _; split; [discriminate|reflexivity]. Qed.
Lemma no_ki_raise {A} (e : exc) : e <> KeyboardInterrupt -> no_ki (@raise A e).
Proof. intros He w _; split; [simpl; congruence|reflexivity]. Qed.
Lemma no_ki_get_self : no_ki get_self.
Proof. intros w _; split; [discriminate|reflexivity]. Qed.
Lemma no_ki_get_env : no_ki get_env.
Proof. intros w _; split; [discriminate|reflexivity]. Qed.
Lemma no_ki_put_self (x : wrapper) : no_ki (put_self x).
Proof. intros w _; split; [discriminate|reflexivity]. Qed.
Lemma no_ki_emit (e : event) : no_ki (emit e).
Proof. intros w _; split; [discriminate|reflexivity]. Qed.
Lemma no_ki_ext (c : ext_call) : no_ki (ext c).
Proof.
  intros w H; unfold ext; specialize (H c).
  destruct (env_raises (w_env w) c) as [e|] eqn:E; simpl; split; try reflexivity.
  - intros Heq; injection Heq as ->; apply H; reflexivity.
  - discriminate.
Qed.
Lemma no_ki_attr {A} (o : option A) : no_ki (attr o).
Proof. destruct o; [apply no_ki_ret|apply no_ki_raise; discriminate]. Qed.

Lemma no_ki_bind {A B} (m : M A) (k : A -> M B) :
  no_ki m -> (forall a, no_ki (k a)) -> no_ki (bind m k).
Proof.
  intros Hm Hk w H; unfold bind.
  destruct (Hm w H) as [K1 E1].
  destruct (m w) as [[a|e] w'] eqn:E; simpl in *.
  - rewrite <- E1 in H; destruct (Hk a w' H) as [K2 E2]; split; congruence.
  - split; [|exact E1].
    intros Heq; injection Heq as ->; apply K1; reflexivity.
Qed.

Lemma no_ki_with_condition {A} (body : M A) : no_ki body -> no_ki (with_condition body).
Proof.
  intros Hb; unfold with_condition; apply no_ki_bind; [apply no_ki_emit|intros _ w H].
  destruct (Hb w H) as [K E]; destruct (body w) as [r w']; simpl in *; split; assumption.
Qed.

Lemma no_ki_py_assert (b : bool) : no_ki (py_assert b).
Proof.
  unfold py_assert; apply no_ki_bind; [apply no_ki_emit|intros _].
  destruct b; [apply no_ki_ret|apply no_ki_raise; discriminate].
Qed.

Lemma no_ki_assert_background_thread : no_ki Kernel.assert_background_thread.
Proof.
  unfold Kernel.assert_background_thread; apply no_ki_bind; [|intros b; apply no_ki_py_assert].
  intros w _; split; [discriminate|reflexivity].
Qed.

Create HintDb no_ki_db.
#[local] Hint Resolve no_ki_ret no_ki_get_self no_ki_get_env no_ki_put_self no_ki_emit
  no_ki_ext no_ki_attr no_ki_py_assert no_ki_assert_background_thread : no_ki_db.

Lemma no_ki_start_kernel : no_ki Kernel._start_kernel.
Proof.
  unfold Kernel._start_kernel, Kernel._setup_streams, Kernel._create_kernel,
    Kernel.zmq_stream, Kernel.ipython_kernel, Kernel.set_shell_stream,
    Kernel.set_control_stream, Kernel.set_kernel, notify_all, logger_info.
  repeat first
    [ progress auto with no_ki_db
    | apply no_ki_with_condition
    | apply no_ki_bind; [| intros ?] ].
Qed.

Lemma run_handles_no_ki (hs : list (M unit)) (w : world) :
  Forall no_ki hs -> env_no_ki (w_env w) ->
  fst (Kernel.run_handles hs w) = Ok tt /\ w_env (snd (Kernel.run_handles hs w)) = w_env w.
Proof.
  intros Hs; revert w; induction Hs as [|h r Hh Hr IH]; intros w H; simpl;
    [split; reflexivity|].
  unfold bind, Kernel.run_handle, try_except.
  destruct (Hh w H) as [K E].
  destruct (h w) as [[[]|e] w1] eqn:Eh; simpl in *.
  - rewrite <- E in H; destruct (IH w1 H) as [R1 E1]; split; congruence.
  - destruct e; try (exfalso; apply K; reflexivity); simpl;
      unfold emit; simpl; rewrite <- E in H;
      (match goal with |- context [Kernel.run_handles r ?w2] =>
         destruct (IH w2 H) as [R1 E1] end;
       split; [exact R1|rewrite E1; exact E]).
Qed.

Lemma run_iterations_no_ki (fuel : nat) : forall (ready : list (M unit)) (i : nat) (w : world),
  Forall no_ki ready -> env_no_ki (w_env w) ->
  (forall j, i <= j < i + fuel -> env_ki_at (w_env w) <> Some j) ->
  fst (Kernel.run_iterations ready i fuel w)
  = Ok (match env_stop_at (w_env w) with
        | Some k => if (i <=? k) && (k <? i + fuel) then Kernel.Returned else Kernel.StillRunning
        | None => Kernel.StillRunning
        end).
Proof.
  induction fuel as [|f IH]; intros ready i w Hr H Hj; simpl.
  { destruct (env_stop_at (w_env w)) as [k|]; [|reflexivity].
    destruct (Nat.leb_spec i k), (Nat.ltb_spec k (i + 0)); simpl; try reflexivity; lia. }
  unfold bind at 1, get_env; simpl.
  destruct (Kernel.option_eq_nat (env_ki_at (w_env w)) i) eqn:O.
  { exfalso; unfold Kernel.option_eq_nat in O.
    destruct (env_ki_at (w_env w)) as [j|] eqn:K; [|discriminate].
    apply Nat.eqb_eq in O; subst j; apply (Hj i); [lia|reflexivity]. }
  unfold bind at 1, emit; simpl.
  set (w1 := upd_trace (w_trace w ++ [EvLoopIteration i]) w).
  destruct (run_handles_no_ki ready w1 Hr H) as [R E].
  unfold bind; destruct (Kernel.run_handles ready w1) as [r w2]; simpl in *; subst r.
  unfold Kernel.option_eq_nat.
  destruct (env_stop_at (w_env w)) as [k|] eqn:Est.
  - destruct (Nat.eqb_spec k i) as [->|Hki].
    + rewrite Nat.leb_refl; destruct (Nat.ltb_spec i (i + S f)); [reflexivity|lia].
    + rewrite IH; [|constructor|rewrite E; exact H|intros j Hj'; rewrite E; apply Hj; lia].
      rewrite E, Est.
      destruct (Nat.leb_spec (S i) k), (Nat.ltb_spec k (S i + f)),
        (Nat.leb_spec i k), (Nat.ltb_spec k (i + S f)); simpl; try reflexivity; lia.
  - rewrite IH; [|constructor|rewrite E; exact H|intros j Hj'; rewrite E; apply Hj; lia].
    rewrite E, Est; reflexivity.
Qed.

(** On the recorded thread, when no library call raises
    [KeyboardInterrupt] and none is delivered to the event loop, the
    background thread keeps running however [_start_kernel] fails: an
    exception of the kernel start goes to the event loop's handler, and
    [_thread_loop] returns (normally) only once the loop is stopped
    ([loop.stop()], e.g. on the kernel's shutdown request); without a stop
    within the run it is still running. *)
Theorem thread_loop_survives_kernel_errors (w : world) (fuel : nat)
  (Hw : on_recorded_thread w)
  (Hnoki : forall c, env_raises (w_env w) c <> Some KeyboardInterrupt)
  (Hloop : forall i, i < fuel -> env_ki_at (w_env w) <> Some i) :
  fst (Kernel._thread_loop fuel w)
  = Ok (match env_stop_at (w_env w) with
        | Some k => if k <? fuel then Kernel.Returned else Kernel.StillRunning
        | None => Kernel.StillRunning
        end).
Proof.
  rewrite (thread_loop_unfold w fuel Hw).
  set (wa := upd_trace (w_trace w ++ [EvAssert true; EvNewEventLoop; EvCallSoon; EvRunForever]) w).
  pose proof (run_iterations_no_ki fuel [Kernel._start_kernel] 0 wa
                (Forall_cons _ no_ki_start_kernel (Forall_nil _)) Hnoki
                (fun j Hj => Hloop j ltac:(lia))) as R.
  destruct (Kernel.run_iterations [Kernel._start_kernel] 0 fuel wa) as [r w']; simpl in R; subst r.
  destruct (env_stop_at (w_env w)) as [k|]; [|reflexivity].
  destruct (k <? fuel); reflexivity.
Qed.

Lemma thread_loop_survives_kernel_errors_witness :
  let w := upd_env (env_raising (Demo.demo_env None) is_kernel_call OtherException)
             (Demo.demo_on_thread None) in
  fst (Kernel._thread_loop 3 w) = Ok Kernel.StillRunning.
Proof.
  apply (thread_loop_survives_kernel_errors
           (upd_env (env_raising (Demo.demo_env None) is_kernel_call OtherException)
              (Demo.demo_on_thread None)) 3).
  - vm_compute; reflexivity.
  - intros c; destruct c; vm_compute; discriminate.
  - intros i _; vm_compute; discriminate.
Defined.

Ltac run_init :=
  cbv beta iota zeta delta [Init.__init__ Init._create_session Init.set_session_key
    Sockets._create_sockets Sockets.zmq_Context get_env
    Sockets.context_socket Sockets.bind_to_random_port Sockets.Heartbeat
    Sockets.heartbeat_port Sockets.heartbeat_start Sockets.set_sockets
    WriteConn._write_connection_file
    WriteConn.atexit_register emit attr ret WriteConn.ipykernel_write_connection_file
    WriteConn.os_stat_st_mode WriteConn.os_chmod ext logger_info
    bind get_self put_self upd_trace upd_zmq upd_self upd_atexit upd_fs upd_threads
    set_files fst snd
    w_fs w_atexit w_trace w_cur w_threads w_next_tid w_next_ctx w_sockets
    w_heartbeats w_ports_used w_self w_env
    _connection_filename _thread _shell_stream _control_stream _kernel _user_ns
    _banner _logger _session_key _connection_info _shell_socket _control_socket
    _iopub_socket fs_files fs_unlink_error f_mode f_key f_info].

Lemma init_run (w : world) (fname : pystr) (with_pid : bool) (logger : option nat)
  (ns : user_ns) (banner key : pystr) (Hok : sockets_ok (w_env w))
  (Hwr : env_raises (w_env w) XWriteConnectionFile = None)
  (Hch : env_raises (w_env w) XChmod = None) :
  let fn := ConnFile.connection_filename fname with_pid (env_pid (w_env w)) in
  let w' := snd (Init.__init__ fname with_pid logger ns banner key w) in
  fst (Init.__init__ fname with_pid logger ns banner key w) = Ok tt
  /\ _connection_filename (w_self w') = fn
  /\ _thread (w_self w') = None /\ _shell_stream (w_self w') = None
  /\ _control_stream (w_self w') = None /\ _kernel (w_self w') = None
  /\ _user_ns (w_self w') = ns /\ _banner (w_self w') = banner
  /\ _logger (w_self w') = match logger with Some l => l | None => Init.default_logger end
  /\ _session_key (w_self w') = key
  /\ Kernel.lookup_thread (w_next_tid w) (w_threads w')
     = Some (heartbeat_thread (List.length (w_heartbeats w)))
  /\ (forall u, u <> w_next_tid w ->
       Kernel.lookup_thread u (w_threads w') = Kernel.lookup_thread u (w_threads w))
  /\ w_next_tid w' = S (w_next_tid w)
  /\ w_cur w' = w_cur w /\ w_env w' = w_env w
  /\ (exists l, w_trace w' = w_trace w ++ l)
  /\ w_atexit w' = Cleanup.HookCleanupConnectionFile fn :: w_atexit w
  /\ (exists info, _connection_info (w_self w') = Some info
        /\ lookup_file fn (fs_files (w_fs w'))
           = Some {| f_mode := Z.land (env_new_file_mode (w_env w)) 448;
                     f_key := key; f_info := info |})
  /\ fs_unlink_error (w_fs w') = fs_unlink_error (w_fs w).
Proof.
  destruct w as [fs0 atx tr cur ths ntid nctx socks hbs ports self e].
  simpl in Hwr, Hch.
  run_init.
  sockets_rewrite Hok.
  rewrite Hwr; cbv beta iota.
  rewrite lookup_put_file_same; cbv beta iota zeta delta [f_mode f_key f_info].
  rewrite Hch; cbv beta iota.
  rewrite lookup_put_file_same; cbv beta iota zeta delta [fst snd fs_files fs_unlink_error w_fs].
  repeat split; try reflexivity.
  all: try (rewrite lookup_new_started, Nat.eqb_refl; reflexivity).
  all: try (intros ?u ?Hu; rewrite lookup_new_started;
            destruct (Nat.eqb_spec ntid u); [congruence|reflexivity]).
  all: try (eexists; rewrite <- ?app_assoc; reflexivity).
  all: try (eexists; split; [reflexivity|apply lookup_put_file_same]).
  all: try (destruct fs0; reflexivity).
Qed.

Lemma atexit_first_hook_removes (p : pystr) (hooks : list Cleanup.hook) (x : fs) :
  has_nul p = false -> fs_unlink_error x p = None ->
  lookup_file p (fs_files (Cleanup.run_atexit (Cleanup.HookCleanupConnectionFile p :: hooks) x))
  = None.
Proof.
  intros Hn Hu; cbn [Cleanup.run_atexit].
  destruct (run_hook_files p p x) as [_ [_ [D _]]].
  apply run_atexit_keeps_absent, D; [exact Hn|exact Hu].
Qed.

(** [__init__]: when the socket calls, writing and [chmod] succeed, it
    starts no kernel thread (the only new thread is the heartbeat's, which
    is started) and creates no kernel, uses the default logger when none is
    given, writes the connection file (pid-suffixed name) owner-only with
    the session key and connection info, and, when that name has no NUL
    byte, the cleanup hook it registers deletes that file at exit whenever
    the OS allows the unlink. *)
Theorem init_writes_private_file_removed_at_exit (w : world) (fname : pystr)
  (with_pid : bool) (logger : option nat) (ns : user_ns) (banner key : pystr)
  (Hok : sockets_ok (w_env w))
  (Hwr : env_raises (w_env w) XWriteConnectionFile = None)
  (Hch : env_raises (w_env w) XChmod = None) :
  let fn := ConnFile.connection_filename fname with_pid (env_pid (w_env w)) in
  let w' := snd (Init.__init__ fname with_pid logger ns banner key w) in
  fst (Init.__init__ fname with_pid logger ns banner key w) = Ok tt
  /\ _thread (w_self w') = None /\ _kernel (w_self w') = None
  /\ Kernel.lookup_thread (w_next_tid w) (w_threads w')
     = Some (heartbeat_thread (List.length (w_heartbeats w)))
  /\ (forall u, u <> w_next_tid w ->
       Kernel.lookup_thread u (w_threads w') = Kernel.lookup_thread u (w_threads w))
  /\ _logger (w_self w') = match logger with Some l => l | None => Init.default_logger end
  /\ (exists info, _connection_info (w_self w') = Some info
        /\ lookup_file fn (fs_files (w_fs w'))
           = Some {| f_mode := Z.land (env_new_file_mode (w_env w)) 448;
                     f_key := key; f_info := info |})
  /\ (has_nul fn = false -> fs_unlink_error (w_fs w) fn = None ->
      lookup_file fn (fs_files (Cleanup.run_atexit (w_atexit w') (w_fs w'))) = None).
Proof.
  destruct (init_run w fname with_pid logger ns banner key Hok Hwr Hch)
    as [R [Fn [T [_ [_ [K [_ [_ [L [_ [Th [Oth [_ [_ [_ [_ [A [I U]]]]]]]]]]]]]]]]]].
  refine (conj R (conj T (conj K (conj Th (conj Oth (conj L (conj I _))))))).
  intros Hn Hu; rewrite A; apply atexit_first_hook_removes; [exact Hn|rewrite U; exact Hu].
Qed.

Lemma init_writes_private_file_removed_at_exit_witness :
  let w := Demo.demo_world None in
  let fn := ConnFile.connection_filename (s "kernel.json") true (env_pid (w_env w)) in
  let w' := snd (Init.__init__ (s "kernel.json") true None (Some [(s "demo_var", 42%Z)])
                   (s "Hello from background-zmq-ipython.") (s "secret") w) in
  sockets_ok (w_env w)
  /\ env_raises (w_env w) XWriteConnectionFile = None
  /\ env_raises (w_env w) XChmod = None
  /\ has_nul fn = false
  /\ fs_unlink_error (w_fs w) fn = None
  /\ lookup_file fn (fs_files (Cleanup.run_atexit (w_atexit w') (w_fs w'))) = None.
Proof.
  cbv zeta.
  assert (H0 : sockets_ok (w_env (Demo.demo_world None))) by (intros c _; reflexivity).
  assert (H1 : env_raises (w_env (Demo.demo_world None)) XWriteConnectionFile = None)
    by (vm_compute; reflexivity).
  assert (H2 : env_raises (w_env (Demo.demo_world None)) XChmod = None)
    by (vm_compute; reflexivity).
  assert (H3 : fs_unlink_error (w_fs (Demo.demo_world None))
                 (ConnFile.connection_filename (s "kernel.json") true
                    (env_pid (w_env (Demo.demo_world None)))) = None)
    by (vm_compute; reflexivity).
  assert (H4 : has_nul (ConnFile.connection_filename (s "kernel.json") true
                 (env_pid (w_env (Demo.demo_world None)))) = false)
    by (vm_compute; reflexivity).
  refine (conj H0 (conj H1 (conj H2 (conj H4 (conj H3 _))))).
  destruct (init_writes_private_file_removed_at_exit (Demo.demo_world None) (s "kernel.json")
              true None (Some [(s "demo_var", 42%Z)]) (s "Hello from background-zmq-ipython.")
              (s "secret") H0 H1 H2) as [_ [_ [_ [_ [_ [_ [_ D]]]]]]].
  exact (D H4 H3).
Defined.

Lemma init_write_failure_run (w : world) (fname : pystr) (with_pid : bool)
  (logger : option nat) (ns : user_ns) (banner key : pystr) (e : exc)
  (Hok : sockets_ok (w_env w))
  (Hwr : env_raises (w_env w) XWriteConnectionFile = Some e) :
  let fn := ConnFile.connection_filename fname with_pid (env_pid (w_env w)) in
  exists w', Init.__init__ fname with_pid logger ns banner key w = (Exc e, w')
  /\ _thread (w_self w') = None
  /\ Kernel.lookup_thread (w_next_tid w) (w_threads w')
     = Some (heartbeat_thread (List.length (w_heartbeats w)))
  /\ (forall u, u <> w_next_tid w ->
       Kernel.lookup_thread u (w_threads w') = Kernel.lookup_thread u (w_threads w))
  /\ w_atexit w' = Cleanup.HookCleanupConnectionFile fn :: w_atexit w
  /\ fs_unlink_error (w_fs w') = fs_unlink_error (w_fs w).
Proof.
  destruct w as [fs0 atx tr cur ths ntid nctx socks hbs ports self e0].
  simpl in Hwr.
  run_init.
  sockets_rewrite Hok.
  rewrite Hwr; cbv beta iota.
  destruct (env_write_partial e0); cbv beta iota zeta delta [fs_files fs_unlink_error w_fs].
  all: eexists; split; [reflexivity|].
  all: repeat split; try reflexivity.
  all: try (rewrite lookup_new_started, Nat.eqb_refl; reflexivity).
  all: try (intros ?u ?Hu; rewrite lookup_new_started;
            destruct (Nat.eqb_spec ntid u); [congruence|reflexivity]).
  all: destruct fs0; reflexivity.
Qed.

(** The library calls [_create_sockets] makes, in order, when the world
    holds [n] sockets. *)
Definition create_sockets_calls (n : nat) : list ext_call :=
  [XZMQContext; XGetHostByName; XBind n; XBind (S n); XBind (S (S n)); XHeartbeat].

Lemma init_socket_failure_run (w : world) (fname : pystr) (with_pid : bool)
  (logger : option nat) (ns : user_ns) (banner key : pystr)
  (Hfail : exists c, In c (create_sockets_calls (List.length (w_sockets w)))
                     /\ env_raises (w_env w) c <> None) :
  exists e w', Init.__init__ fname with_pid logger ns banner key w = (Exc e, w')
  /\ w_atexit w' = w_atexit w /\ w_fs w' = w_fs w /\ _thread (w_self w') = None.
Proof.
  destruct w as [fs0 atx tr cur ths ntid nctx socks hbs ports self e0].
  simpl in Hfail.
  run_init.
  repeat (first [ rewrite update_nth_last | rewrite nth_error_last
                | match goal with |- context [env_raises e0 ?c] =>
                    let E := fresh "E" in destruct (env_raises e0 c) eqn:E end ];
          cbv beta iota).
  all: try (eexists _, _; split; [reflexivity|]; repeat split; reflexivity).
  all: exfalso; destruct Hfail as [c [Hin Hne]]; apply Hne; rewrite ?length_app in *; simpl in *;
    destruct Hin as [<-|[<-|[<-|[<-|[<-|[<-|[]]]]]]];
    first [assumption
          | match goal with E : env_raises ?en (XBind ?k) = None |- env_raises ?en (XBind ?k') = None =>
              replace k' with k by lia; exact E end].
Qed.

(** [init_ipython_kernel]: when one of the library calls of
    [_create_sockets] raises ([zmq.Context()], [gethostbyname], a
    [bind_to_random_port] that finds no free port, or the [Heartbeat]
    constructor), the exception propagates out of the constructor before
    [_write_connection_file]: no cleanup hook is registered, the file
    system is untouched, and [start()] is never reached (no kernel
    thread). *)
Theorem init_ipython_kernel_socket_failure_writes_nothing (w : world) (fname : pystr)
  (with_pid : bool) (logger : option nat) (ns : user_ns) (banner key : pystr)
  (Hfail : exists c, In c (create_sockets_calls (List.length (w_sockets w)))
                     /\ env_raises (w_env w) c <> None) :
  let r := Init.init_ipython_kernel fname with_pid logger ns banner key w in
  (exists e, fst r = Exc e)
  /\ w_atexit (snd r) = w_atexit w /\ w_fs (snd r) = w_fs w
  /\ _thread (w_self (snd r)) = None.
Proof.
  destruct (init_socket_failure_run w fname with_pid logger ns banner key Hfail)
    as [e [w1 [E [A [F T]]]]].
  unfold Init.init_ipython_kernel; rewrite (bind_exc _ _ _ _ _ E).
  cbv zeta; cbn [fst snd].
  exact (conj (ex_intro _ e eq_refl) (conj A (conj F T))).
Qed.

Lemma init_ipython_kernel_socket_failure_writes_nothing_witness :
  let w := upd_env (env_raising (Demo.demo_env None)
                      (fun c => match c with XBind _ => true | _ => false end) OtherException)
             (Demo.demo_world None) in
  (exists c, In c (create_sockets_calls (List.length (w_sockets w)))
             /\ env_raises (w_env w) c <> None)
  /\ w_atexit (snd (Init.init_ipython_kernel (s "kernel.json") true None None
                      (s "Hello from background-zmq-ipython.") (s "secret") w)) = w_atexit w.
Proof.
  cbv zeta.
  assert (H : exists c, In c (create_sockets_calls (List.length (w_sockets
                (upd_env (env_raising (Demo.demo_env None)
                   (fun c => match c with XBind _ => true | _ => false end) OtherException)
                   (Demo.demo_world None)))))
              /\ env_raises (w_env (upd_env (env_raising (Demo.demo_env None)
                   (fun c => match c with XBind _ => true | _ => false end) OtherException)
                   (Demo.demo_world None))) c <> None).
  { exists (XBind 0); split; [simpl; auto|vm_compute; discriminate]. }
  split; [exact H|].
  exact (proj1 (proj2 (init_ipython_kernel_socket_failure_writes_nothing _ (s "kernel.json")
           true None None (s "Hello from background-zmq-ipython.") (s "secret") H))).
Defined.

(** [init_ipython_kernel]: when the socket calls succeed and
    [write_connection_file] raises, the exception propagates out of the
    constructor and [start()] is never reached: no kernel thread is created
    (the only new thread is the heartbeat's); the cleanup hook registered
    just before is kept and, when the name has no NUL byte, still deletes a
    partially written file at exit whenever the OS allows the unlink. *)
Theorem init_ipython_kernel_write_failure_starts_nothing (w : world) (fname : pystr)
  (with_pid : bool) (logger : option nat) (ns : user_ns) (banner key : pystr) (e : exc)
  (Hok : sockets_ok (w_env w))
  (Hwr : env_raises (w_env w) XWriteConnectionFile = Some e) :
  let fn := ConnFile.connection_filename fname with_pid (env_pid (w_env w)) in
  let r := Init.init_ipython_kernel fname with_pid logger ns banner key w in
  fst r = Exc e
  /\ _thread (w_self (snd r)) = None
  /\ Kernel.lookup_thread (w_next_tid w) (w_threads (snd r))
     = Some (heartbeat_thread (List.length (w_heartbeats w)))
  /\ (forall u, u <> w_next_tid w ->
       Kernel.lookup_thread u (w_threads (snd r)) = Kernel.lookup_thread u (w_threads w))
  /\ w_atexit (snd r) = Cleanup.HookCleanupConnectionFile fn :: w_atexit w
  /\ (has_nul fn = false -> fs_unlink_error (w_fs w) fn = None ->
      lookup_file fn (fs_files (Cleanup.run_atexit (w_atexit (snd r)) (w_fs (snd r)))) = None).
Proof.
  destruct (init_write_failure_run w fname with_pid logger ns banner key e Hok Hwr)
    as [w1 [E [T [Th [Oth [A U]]]]]].
  unfold Init.init_ipython_kernel; rewrite (bind_exc _ _ _ _ _ E).
  cbv zeta; cbn [fst snd].
  refine (conj eq_refl (conj T (conj Th (conj Oth (conj A _))))).
  intros Hn Hu; rewrite A; apply atexit_first_hook_removes; [exact Hn|rewrite U; exact Hu].
Qed.

Lemma init_ipython_kernel_write_failure_starts_nothing_witness :
  let w := upd_env (env_raising (Demo.demo_env None) is_write_call (OSError PermissionError))
             (Demo.demo_world None) in
  sockets_ok (w_env w)
  /\ env_raises (w_env w) XWriteConnectionFile = Some (OSError PermissionError)
  /\ fst (Init.init_ipython_kernel (s "kernel.json") true None (Some [(s "demo_var", 42%Z)])
            (s "Hello from background-zmq-ipython.") (s "secret") w) = Exc (OSError PermissionError).
Proof.
  cbv zeta.
  assert (H0 : sockets_ok (w_env (upd_env (env_raising (Demo.demo_env None) is_write_call
                 (OSError PermissionError)) (Demo.demo_world None))))
    by (intros c Hc; destruct c; try discriminate; reflexivity).
  assert (H : env_raises (w_env (upd_env (env_raising (Demo.demo_env None) is_write_call
                 (OSError PermissionError)) (Demo.demo_world None))) XWriteConnectionFile
              = Some (OSError PermissionError)) by (vm_compute; reflexivity).
  split; [exact H0|split; [exact H|]].
  exact (proj1 (init_ipython_kernel_write_failure_starts_nothing _ (s "kernel.json") true None
           (Some [(s "demo_var", 42%Z)]) (s "Hello from background-zmq-ipython.") (s "secret")
           _ H0 H)).
Defined.

Lemma init_run_eq (w : world) (fname : pystr) (with_pid : bool) (logger : option nat)
  (ns : user_ns) (banner key : pystr) (Hok : sockets_ok (w_env w))
  (Hwr : env_raises (w_env w) XWriteConnectionFile = None)
  (Hch : env_raises (w_env w) XChmod = None) :
  exists w', Init.__init__ fname with_pid logger ns banner key w = (Ok tt, w')
  /\ _connection_filename (w_self w')
     = ConnFile.connection_filename fname with_pid (env_pid (w_env w))
  /\ _user_ns (w_self w') = ns
  /\ w_next_tid w' = S (w_next_tid w) /\ w_env w' = w_env w
  /\ (exists l, w_trace w' = w_trace w ++ l).
Proof.
  destruct (init_run w fname with_pid logger ns banner key Hok Hwr Hch)
    as [R [Fn [_ [_ [_ [_ [NS [_ [_ [_ [_ [_ [Tid [_ [Env [Tr _]]]]]]]]]]]]]]]].
  exists (snd (Init.__init__ fname with_pid logger ns banner key w)).
  split; [rewrite <- R; apply surjective_pairing|].
  exact (conj Fn (conj NS (conj Tid (conj Env Tr)))).
Qed.

Lemma start_eq (w : world) :
  exists w', Kernel.start w = (Ok tt, w')
  /\ _thread (w_self w') = Some (w_next_tid w)
  /\ Kernel.lookup_thread (w_next_tid w) (w_threads w') = Some kernel_thread
  /\ w_trace w' = w_trace w ++ [EvNewThread (w_next_tid w); EvSetDaemon (w_next_tid w);
                               EvSetThread (w_next_tid w); EvThreadStart (w_next_tid w)]
  /\ w_env w' = w_env w
  /\ _user_ns (w_self w') = _user_ns (w_self w)
  /\ _connection_filename (w_self w') = _connection_filename (w_self w).
Proof.
  destruct (start_effects w) as [R [T [L [_ [Tr [_ [Env _]]]]]]].
  exists (snd (Kernel.start w)).
  split; [rewrite <- R; apply surjective_pairing|].
  refine (conj T (conj L (conj Tr (conj Env _)))).
  destruct w as [fs0 atx tr cur ths ntid nctx socks hbs ports self e].
  cbn; rewrite !Nat.eqb_refl; cbn; rewrite ?Nat.eqb_refl; cbn.
  split; reflexivity.
Qed.

(** [main]: when the socket calls succeed, the connection file is written
    and no [time.sleep] is interrupted, the kernel thread is created (the
    thread after the heartbeat's) and started (with
    [user_ns={"demo_var": 42}] and connection file [kernel-<pid>.json])
    before the first sleep, and the main thread keeps sleeping. *)
Theorem main_starts_kernel_thread_before_sleeping (w : world) (key : pystr) (fuel : nat)
  (Hok : sockets_ok (w_env w))
  (Hwr : env_raises (w_env w) XWriteConnectionFile = None)
  (Hch : env_raises (w_env w) XChmod = None)
  (Hno : forall k, k < fuel -> env_sleep_ki (w_env w) k = false) :
  let t := S (w_next_tid w) in
  let r := Init.main key fuel w in
  fst r = Ok Kernel.StillRunning
  /\ _thread (w_self (snd r)) = Some t
  /\ Kernel.lookup_thread t (w_threads (snd r)) = Some kernel_thread
  /\ _user_ns (w_self (snd r)) = Some [(s "demo_var", 42%Z)]
  /\ _connection_filename (w_self (snd r))
     = s "kernel-" ++ fmt_int (env_pid (w_env w)) ++ s ".json"
  /\ exists l, w_trace (snd r)
               = w_trace w ++ l ++ [EvThreadStart t] ++ map EvSleep (seq 0 fuel).
Proof.
  destruct (init_run_eq w (s "kernel.json") true None (Some [(s "demo_var", 42%Z)])
              (s "Hello from background-zmq-ipython.") key Hok Hwr Hch)
    as [w1 [E1 [Fn1 [NS1 [Tid1 [Env1 [l1 Tr1]]]]]]].
  destruct (start_eq w1) as [w2 [E2 [T2 [L2 [Tr2 [Env2 [NS2 Fn2]]]]]]].
  assert (E : Init.main key fuel w = Kernel._endless_dummy_loop fuel w2).
  { unfold Init.main, Init.init_ipython_kernel.
    unfold bind at 1; rewrite (bind_ok _ _ _ _ _ E1), E2; reflexivity. }
  assert (Hno2 : forall k, 0 <= k < 0 + fuel -> env_sleep_ki (w_env w2) k = false).
  { intros k Hk; rewrite Env2, Env1; apply Hno; lia. }
  cbv zeta; rewrite E; unfold Kernel._endless_dummy_loop;
    rewrite (endless_loop_from_uninterrupted fuel 0 w2 Hno2).
  rewrite Tid1 in T2, L2, Tr2.
  destruct w2 as [fs2 atx2 tr2 cur2 ths2 ntid2 nctx2 socks2 hbs2 ports2 self2 e2].
  cbn [fst snd upd_trace w_self w_threads w_trace] in *.
  refine (conj eq_refl (conj T2 (conj L2 (conj _ (conj _ _))))).
  - rewrite NS2, NS1; reflexivity.
  - rewrite Fn2, Fn1; reflexivity.
  - exists (l1 ++ [EvNewThread (S (w_next_tid w)); EvSetDaemon (S (w_next_tid w));
                  EvSetThread (S (w_next_tid w))]).
    rewrite Tr2, Tr1, <- !app_assoc; reflexivity.
Qed.

Lemma main_starts_kernel_thread_before_sleeping_witness :
  let w := Demo.demo_world None in
  sockets_ok (w_env w)
  /\ (forall k, k < 2 -> env_sleep_ki (w_env w) k = false)
  /\ fst (Init.main (s "secret") 2 w) = Ok Kernel.StillRunning
  /\ _thread (w_self (snd (Init.main (s "secret") 2 w))) = Some (S (w_next_tid w)).
Proof.
  cbv zeta.
  assert (H0 : sockets_ok (w_env (Demo.demo_world None))) by (intros c _; reflexivity).
  assert (H : forall k, k < 2 -> env_sleep_ki (w_env (Demo.demo_world None)) k = false).
  { intros k Hk; destruct k as [|[|k]]; [reflexivity|reflexivity|lia]. }
  destruct (main_starts_kernel_thread_before_sleeping (Demo.demo_world None) (s "secret") 2
              H0 ltac:(vm_compute; reflexivity) ltac:(vm_compute; reflexivity) H)
    as [R [T _]].
  exact (conj H0 (conj H (conj R T))).
Defined.
